(** * Access-control helpers of Grafana: scope validation, permission maps,
      the [HasAccess] / [HasGlobalAccess] helpers and the dashboard guardian
      response.

    The Go code of package [accesscontrol] and of [pkg/api/dashboard.go] is
    embedded as Rocq functions.  Go strings are byte sequences and are modelled
    by [string] (a list of 8-bit [ascii] characters); Go [int] values that
    index strings are modelled by [Z]; a run-time panic is an explicit
    outcome of the [result] type. *)

From Stdlib Require Import ZArith Ascii String.
From stdpp Require Import base option list strings gmap.

Local Open Scope Z_scope.

(** ** The Go run time: panics, string indexing and slicing *)

Module Go.

(** The run-time panics the embedded code can raise. *)
Inductive panic : Type :=
| IndexOutOfRange (i len : Z)
| SliceBoundsOutOfRange (hi len : Z)
| NilPointerDereference.

(** The outcome of running Go code: a value, or a panic. *)
Inductive result (A : Type) : Type :=
| Ok (a : A)
| Panic (p : panic).
Arguments Ok {A} a.
Arguments Panic {A} p.

#[global] Instance result_ret : MRet result := fun A a => Ok a.
#[global] Instance result_bind : MBind result := fun A B f r =>
  match r with
  | Ok a => f a
  | Panic p => Panic p
  end.

(** [len(s)] *)
Definition len (s : string) : Z := Z.of_nat (String.length s).

(** [s[i]]: panics unless [0 <= i < len(s)]. *)
Definition index (s : string) (i : Z) : result ascii :=
  if decide (0 <= i < len s) then
    match String.get (Z.to_nat i) s with
    | Some c => Ok c
    | None => Panic (IndexOutOfRange i (len s))
    end
  else Panic (IndexOutOfRange i (len s)).

(** [s[:hi]]: panics unless [0 <= hi <= len(s)]. *)
Definition slice_to (s : string) (hi : Z) : result string :=
  if decide (0 <= hi <= len s) then Ok (String.substring 0 (Z.to_nat hi) s)
  else Panic (SliceBoundsOutOfRange hi (len s)).

(** Membership of a byte in a string of ASCII characters. *)
Fixpoint has_byte (chars : string) (c : ascii) : bool :=
  match chars with
  | EmptyString => false
  | String d chars' => Ascii.eqb c d || has_byte chars' c
  end.

(** [strings.ContainsAny(s, chars)] for [chars] made of ASCII characters.
    The library decodes [s] as UTF-8; a byte below 0x80 is never part of a
    longer encoding and an invalid byte decodes to U+FFFD, so for ASCII
    [chars] the answer is whether some byte of [s] occurs in [chars]. *)
Fixpoint strings_ContainsAny (s chars : string) : bool :=
  match s with
  | EmptyString => false
  | String c s' => has_byte chars c || strings_ContainsAny s' chars
  end.

End Go.
Import Go.

(** ** [ValidateScope] *)

(** [func ValidateScope(scope string) bool].  The early [return false] of the
    wildcard check is the [Some false] of [early]; falling through it reaches
    the final [return]. *)
Definition ValidateScope (scope : string) : result bool :=
  prefix ← slice_to scope (len scope - 1);
  last ← index scope (len scope - 1);
  early ←
    (if (0 <? len prefix) && Ascii.eqb last "*" then
       lastChar ← index prefix (len prefix - 1);
       if negb (Ascii.eqb lastChar ":") && negb (Ascii.eqb lastChar "/")
       then mret (Some false)
       else mret None
     else mret None);
  match early with
  | Some b => mret b
  | None => mret (negb (strings_ContainsAny prefix "*?"))
  end.

(** The character [c] occurs in [s] (at some position). *)
Definition occurs (c : ascii) (s : string) : Prop :=
  ∃ p q, s = p +:+ String c q.

(** ** Permissions *)

(** [type Permission struct]: the fields the code below reads. *)
Record Permission : Type := {
  Action : string;
  Scope : string
}.

(** A Go pointer [*T] as the code uses it here: [nil], or the value it
    points to. *)
Definition ptr (T : Type) : Type := option T.

(** [*p], [p.f]: dereferencing [nil] panics. *)
Definition deref {T : Type} (p : ptr T) : result T :=
  match p with
  | Some v => Ok v
  | None => Panic NilPointerDereference
  end.

(** The [for _, p := range permissions] loop of [BuildPermissionsMap]. *)
Fixpoint BuildPermissionsMap_range (permissionsMap : gmap string bool)
    (permissions : list (ptr Permission)) : result (gmap string bool) :=
  match permissions with
  | [] => mret permissionsMap
  | p :: rest =>
      p' ← deref p;
      BuildPermissionsMap_range (<[Action p' := true]> permissionsMap) rest
  end.

(** [func BuildPermissionsMap(permissions []*Permission) map[string]bool] *)
Definition BuildPermissionsMap (permissions : list (ptr Permission))
    : result (gmap string bool) :=
  BuildPermissionsMap_range ∅ permissions.

(** ** The request context and the access-control interface *)

Section Models.

(** Types of other packages that the helpers only pass along:
    [context.Context], [accesscontrol.Evaluator], [error] values, and the
    fields of [models.SignedInUser] that the helpers never name.  The
    fields are taken as the struct holds them: a field that is a slice, a
    map or a pointer is the reference, not the object it leads to. *)
Context {context_Context Evaluator Error UserFields : Type}.

(** [models.SignedInUser]: the three fields the helpers assign, and the
    rest of the struct.  Copying the struct, as [userCopy := *c.SignedInUser]
    does, copies these four values and nothing else: the copy holds the
    references the original holds. *)
Record SignedInUser : Type := {
  OrgId : Z;
  OrgName : string;
  OrgRole : string;
  OtherFields : UserFields
}.

Definition with_OrgId (v : Z) (u : SignedInUser) : SignedInUser :=
  {| OrgId := v; OrgName := OrgName u; OrgRole := OrgRole u;
     OtherFields := OtherFields u |}.
Definition with_OrgRole (v : string) (u : SignedInUser) : SignedInUser :=
  {| OrgId := OrgId u; OrgName := OrgName u; OrgRole := v;
     OtherFields := OtherFields u |}.
Definition with_OrgName (v : string) (u : SignedInUser) : SignedInUser :=
  {| OrgId := OrgId u; OrgName := v; OrgRole := OrgRole u;
     OtherFields := OtherFields u |}.

(** One call of [Logger.Error(msg, key, err)]. *)
Record LogLine : Type := {
  log_msg : string;
  log_key : string;
  log_err : Error
}.

(** [models.ReqContext], as the helpers see it: the signed-in user that
    [c.SignedInUser] points to, the context of [c.Req], and what has been
    written to [c.Logger].  The pointers [c], [c.SignedInUser] and [c.Req]
    are taken not to be [nil], as in a request that reached a handler. *)
Record ReqContext : Type := {
  c_SignedInUser : SignedInUser;
  c_Req_Context : context_Context;
  c_Logger : list LogLine
}.

(** A call that leaves the helper, kept in the order it was made. *)
Inductive Call : Type :=
| CallIsDisabled
| CallEvaluate (ctx : context_Context) (user : SignedInUser) (evaluator : Evaluator)
| CallFallback (c : ReqContext).

Section World.

(** The state of everything behind the interface: the engine, its store,
    whatever the legacy predicate consults, and the objects that the slice,
    map and pointer fields of a principal lead to.  Two structs that hold
    the same reference share the object: there is one world. *)
Context {W : Type}.

(** [type AccessControl interface], the two methods the helpers call.
    Both may change the world.  [Evaluate] receives [user] by pointer:
    it is given the struct found there and returns the struct it leaves
    there; what it writes through a reference held in a field of that
    struct it writes to the world.  The pointer is its only way to the
    request context. *)
Record AccessControl : Type := {
  Evaluate : context_Context → SignedInUser → Evaluator → W →
             (bool * option Error) * SignedInUser * W;
  IsDisabled : W → bool * W
}.

(** The legacy predicate, a Go function from a pointer to
    [models.ReqContext] to [bool]: it receives the request context by
    pointer and may change it and the world. *)
Definition Fallback : Type := ReqContext → W → bool * ReqContext * W.

(** The state the helpers run in: the request context that [c] points
    to, the world, and the calls made so far. *)
Record State : Type := {
  st_c : ReqContext;
  st_world : W;
  st_calls : list Call
}.

(** The calls made on the way from the state [s] to the state [s']. *)
Definition calls_since (s s' : State) : list Call :=
  drop (length (st_calls s)) (st_calls s').

Definition M (A : Type) : Type := State → A * State.

#[global] Instance M_ret : MRet M := λ A a s, (a, s).
#[global] Instance M_bind : MBind M := λ A B f m s,
  let '(a, s') := m s in f a s'.

(** Reading [*c]. *)
Definition read_c : M ReqContext := λ s, (st_c s, s).

(** [*c.SignedInUser = user] *)
Definition store_SignedInUser (user : SignedInUser) : M unit := λ s,
  (tt, {| st_c := {| c_SignedInUser := user;
                     c_Req_Context := c_Req_Context (st_c s);
                     c_Logger := c_Logger (st_c s) |};
          st_world := st_world s;
          st_calls := st_calls s |}).

(** [ac.IsDisabled()] *)
Definition call_IsDisabled (ac : AccessControl) : M bool := λ s,
  let '(disabled, w) := IsDisabled ac (st_world s) in
  (disabled, {| st_c := st_c s; st_world := w;
                st_calls := st_calls s ++ [CallIsDisabled] |}).

(** [ac.Evaluate(ctx, &user, evaluator)]: the results, and the value
    left behind the pointer. *)
Definition call_Evaluate (ac : AccessControl) (ctx : context_Context)
    (user : SignedInUser) (evaluator : Evaluator)
    : M (bool * option Error * SignedInUser) := λ s,
  let '(r, user', w) := Evaluate ac ctx user evaluator (st_world s) in
  ((r, user'), {| st_c := st_c s; st_world := w;
                  st_calls := st_calls s ++ [CallEvaluate ctx user evaluator] |}).

(** [fallback(c)] *)
Definition call_fallback (fallback : Fallback) : M bool := λ s,
  let '(b, c', w) := fallback (st_c s) (st_world s) in
  (b, {| st_c := c'; st_world := w;
         st_calls := st_calls s ++ [CallFallback (st_c s)] |}).

(** [c.Logger.Error(msg, key, err)] *)
Definition Logger_Error (msg key : string) (err : Error) : M unit := λ s,
  (tt, {| st_c := {| c_SignedInUser := c_SignedInUser (st_c s);
                     c_Req_Context := c_Req_Context (st_c s);
                     c_Logger := c_Logger (st_c s)
                                   ++ [{| log_msg := msg; log_key := key;
                                          log_err := err |}] |};
          st_world := st_world s;
          st_calls := st_calls s |}).

(** The constant [GlobalOrgID] of the package. *)
Variable GlobalOrgID : Z.

(** [HasGlobalAccess(ac, c)]: the closure it returns, a function of
    [fallback] and [evaluator], with the pointer [c] standing for the
    request context of the state.  [userCopy] is a local struct, a shallow
    copy of the one [c.SignedInUser] points to: [Evaluate] is given the
    pointer [&userCopy], the struct it leaves there goes with the local
    variable, and what it wrote through the references of the copy, which
    are those of the caller's principal, stays in the world. *)
Definition HasGlobalAccess (ac : AccessControl)
    (fallback : Fallback) (evaluator : Evaluator) : M bool :=
  disabled ← call_IsDisabled ac;
  if disabled : bool then call_fallback fallback
  else
    c ← read_c;
    let userCopy := c_SignedInUser c in
    let userCopy := with_OrgId GlobalOrgID userCopy in
    let userCopy := with_OrgRole "" userCopy in
    let userCopy := with_OrgName "" userCopy in
    '(hasAccess, err, _) ← call_Evaluate ac (c_Req_Context c) userCopy evaluator;
    match err with
    | Some e =>
        _ ← Logger_Error "Error from access control system" "error" e;
        mret false
    | None => mret hasAccess
    end.

(** [HasAccess(ac, c)]: the closure it returns, likewise. *)
Definition HasAccess (ac : AccessControl)
    (fallback : Fallback) (evaluator : Evaluator) : M bool :=
  disabled ← call_IsDisabled ac;
  if disabled : bool then call_fallback fallback
  else
    c ← read_c;
    '(hasAccess, err, user') ←
      call_Evaluate ac (c_Req_Context c) (c_SignedInUser c) evaluator;
    _ ← store_SignedInUser user';
    match err with
    | Some e =>
        _ ← Logger_Error "Error from access control system" "error" e;
        mret false
    | None => mret hasAccess
    end.

End World.

End Models.

Arguments SignedInUser : clear implicits.
Arguments LogLine : clear implicits.
Arguments ReqContext : clear implicits.
Arguments Call : clear implicits.
Arguments AccessControl : clear implicits.
Arguments Fallback : clear implicits.
Arguments State : clear implicits.

(** ** The dashboard guardian response *)

Section Dashboard.

(** [error] values and the [Response] type of package [api]. *)
Context {Error Response : Type}.

(** [func ApiError(status int, message string, err error) Response] of
    package [api]. *)
Variable ApiError : Z → string → option Error → Response.

(** [func dashboardGuardianResponse(err error) Response]; a [nil] error is
    [None]. *)
Definition dashboardGuardianResponse (err : option Error) : Response :=
  if decide (is_Some err)
  then ApiError 500 "Error while checking dashboard permissions" err
  else ApiError 403 "Access denied to this dashboard" None.

End Dashboard.

(** ** A concrete request

    One signed-in user, one request context and three engines, on which the
    helpers can be run: [unit] for the context, the world and the remaining
    user fields, strings for evaluators and errors. *)

Module Scenario.

Definition user : SignedInUser unit :=
  {| OrgId := 1; OrgName := "Main Org."; OrgRole := "Admin"; OtherFields := tt |}.

Definition c : ReqContext unit string unit :=
  {| c_SignedInUser := user; c_Req_Context := tt; c_Logger := [] |}.

Definition start : State unit string string unit unit :=
  {| st_c := c; st_world := tt; st_calls := [] |}.

(** An enabled engine whose permission lookup fails. *)
Definition failing : AccessControl unit string string unit unit :=
  {| Evaluate := λ _ u _ w, (true, Some "store unreachable", u, w);
     IsDisabled := λ w, (false, w) |}.

(** An enabled engine that grants. *)
Definition granting : AccessControl unit string string unit unit :=
  {| Evaluate := λ _ u _ w, (true, None, u, w);
     IsDisabled := λ w, (false, w) |}.

(** A disabled engine. *)
Definition disabled : AccessControl unit string string unit unit :=
  {| Evaluate := λ _ u _ w, (false, None, u, w);
     IsDisabled := λ w, (true, w) |}.

(** The legacy predicate [ReqOrgAdmin]: [c.OrgRole == models.ROLE_ADMIN],
    with ["Admin"] for the constant. *)
Definition ReqOrgAdmin : Fallback unit string unit unit :=
  λ c w, (bool_decide (OrgRole (c_SignedInUser c) = "Admin"), c, w).

(** A response that records what [ApiError] was given. *)
Record NormalResponse : Type := {
  status : Z;
  message : string;
  err : option string
}.

Definition ApiError (status : Z) (message : string) (err : option string)
    : NormalResponse :=
  {| status := status; message := message; err := err |}.

End Scenario.

(** ** [GroupScopesByAction] *)

(** The [for _, p := range permissions] loop of [GroupScopesByAction]: the
    map of maps [map[string]map[string]struct{}] is a map from actions to
    sets of scopes.  When the action is a key already, the scope is added to
    the set stored there; otherwise a new set with that scope is stored. *)
Fixpoint GroupScopesByAction_range (m : gmap string (gset string))
    (permissions : list (ptr Permission)) : result (gmap string (gset string)) :=
  match permissions with
  | [] => mret m
  | p :: rest =>
      p' ← deref p;
      match m !! Action p' with
      | Some scopes =>
          GroupScopesByAction_range (<[Action p' := scopes ∪ {[Scope p']}]> m) rest
      | None =>
          GroupScopesByAction_range (<[Action p' := {[Scope p']}]> m) rest
      end
  end.

(** [func GroupScopesByAction(permissions []*Permission)
    map[string]map[string]struct{}] *)
Definition GroupScopesByAction (permissions : list (ptr Permission))
    : result (gmap string (gset string)) :=
  GroupScopesByAction_range ∅ permissions.

(** ** The legacy predicates [ReqGrafanaAdmin] and [ReqOrgAdmin] *)

Section LegacyPredicates.

Context {context_Context Error UserFields W : Type}.

(** The constant [models.ROLE_ADMIN]. *)
Variable ROLE_ADMIN : string.

(** The field [c.IsGrafanaAdmin] of the request context. *)
Variable IsGrafanaAdmin : ReqContext context_Context Error UserFields → bool.

(** [var ReqGrafanaAdmin]: [return c.IsGrafanaAdmin]. *)
Definition ReqGrafanaAdmin : Fallback context_Context Error UserFields W :=
  λ c w, (IsGrafanaAdmin c, c, w).

(** [var ReqOrgAdmin]: [return c.OrgRole == models.ROLE_ADMIN]. *)
Definition ReqOrgAdmin : Fallback context_Context Error UserFields W :=
  λ c w, (bool_decide (OrgRole (c_SignedInUser c) = ROLE_ADMIN), c, w).

End LegacyPredicates.

(** ** A principal with a slice

    A request whose principal has, besides the three fields, the slice
    [Teams]: the struct holds a reference, here a number, and the world
    holds the array each reference leads to. *)

Module Sharing.

Definition user : SignedInUser nat :=
  {| OrgId := 1; OrgName := "Main Org."; OrgRole := "Admin";
     OtherFields := 0%nat |}.

(** [u.Teams], read in the world [w]. *)
Definition Teams (u : SignedInUser nat) (w : gmap nat (list Z))
    : option (list Z) :=
  w !! OtherFields u.

Definition c : ReqContext unit string nat :=
  {| c_SignedInUser := user; c_Req_Context := tt; c_Logger := [] |}.

(** The teams of the signed-in user are [[5]]. *)
Definition start : State unit string string nat (gmap nat (list Z)) :=
  {| st_c := c; st_world := {[ 0%nat := [5] ]}; st_calls := [] |}.

(** An enabled engine that grants and writes to the principal it is given:
    [user.OrgId = 7] and [user.Teams[0] = 99]. *)
Definition meddling : AccessControl unit string string nat (gmap nat (list Z)) :=
  {| Evaluate := λ _ u _ w,
       (true, None, with_OrgId 7 u, alter (<[0%nat := 99]>) (OtherFields u) w);
     IsDisabled := λ w, (false, w) |}.

End Sharing.

(** ** The dashboard handlers of package [api]

    The handlers talk to the message bus and to the dashboard guardian.  Both
    are taken as they come: a [Bus] is one handler per message type, working
    on a state [B] that stands for the database and whatever else lies
    behind; the guardian's checks work on the same state.  Every call that
    leaves a handler is kept, with its outcome, in the order it was made. *)

Module Api.

Section Handlers.

(** [error] values, [api.Response], the user behind [c.SignedInUser],
    [models.User], [time.Time], [*simplejson.Json], and the state behind the
    bus and the guardian. *)
Context {Error Response SignedInUser User Time simplejson_Json B : Type}.

(** What [models.SaveDashboardCommand] holds besides the fields named
    below. *)
Context {CommandRest : Type}.

(** [models.Dashboard]: the fields the handlers read. *)
Record Dashboard : Type := {
  Id : Z;
  Slug : string;
  Title : string;
  Version : Z;
  HasAcl : bool;
  IsFolder : bool;
  ParentId : Z;
  UpdatedBy : Z;
  CreatedBy : Z;
  Created : Time;
  Updated : Time;
  Data : simplejson_Json
}.

(** [models.SaveDashboardCommand] *)
Record SaveDashboardCommand : Type := {
  cmd_OrgId : Z;
  cmd_UserId : Z;
  cmd_Dashboard : simplejson_Json;
  cmd_RestoredFrom : Z;
  cmd_Message : string;
  cmd_rest : CommandRest
}.

(** [middleware.Context]: the fields and the method the handlers use. *)
Record middleware_Context : Type := {
  IsSignedIn : bool;
  UserId : Z;
  OrgId : Z;
  c_SignedInUser : SignedInUser;
  Params : string → string
}.

(** [dtos.DashboardMeta]: the fields [GetDashboard] sets. *)
Record DashboardMeta : Type := {
  Meta_IsStarred : bool;
  Meta_Slug : string;
  Meta_Type : string;
  Meta_CanStar : bool;
  Meta_CanSave : bool;
  Meta_CanEdit : bool;
  Meta_Created : Time;
  Meta_Updated : Time;
  Meta_UpdatedBy : string;
  Meta_CreatedBy : string;
  Meta_Version : Z;
  Meta_HasAcl : bool;
  Meta_IsFolder : bool;
  Meta_FolderId : Z;
  Meta_FolderTitle : string
}.

(** [dtos.DashboardFullWithMeta] *)
Record DashboardFullWithMeta : Type := {
  Dto_Dashboard : simplejson_Json;
  Dto_Meta : DashboardMeta
}.

(** The values the handlers hand to [Json]: a map from strings to strings,
    a dashboard with its meta data, or the map with the keys ["status"],
    ["slug"], ["version"] and ["id"] of a saved dashboard. *)
Inductive Body : Type :=
| BodyMap (resp : gmap string string)
| BodyDashboard (dto : DashboardFullWithMeta)
| BodySaved (status slug : string) (version id : Z).

(** The messages the handlers dispatch, with the fields they set. *)
Inductive Msg : Type :=
| IsStarredByUserQuery (userId dashboardId : Z)
| GetUserByIdQuery (id : Z)
| GetDashboardQuery (slug : string) (id orgId : Z)
| DeleteDashboardCommand (orgId id : Z)
| ValidateDashboardAlertsCommand (orgId userId dashboardId : Z)
| SaveDashboard (orgId userId dashboardId : Z)
| UpdateDashboardAlertsCommand (orgId userId : Z).

(** The checks of the dashboard guardian. *)
Inductive Check : Type := CanView | CanEdit | CanSave.

(** What a handler did: a message dispatched and the error it came back
    with, a guardian check and its two results, a request timer. *)
Inductive Event : Type :=
| Dispatched (msg : Msg) (err : option Error)
| Checked (check : Check) (dashId orgId : Z) (user : SignedInUser)
    (allowed : bool) (err : option Error)
| TimedRequest (timer : string)
| QuotaChecked (target : string) (reached : bool) (err : option Error).

(** The handlers registered on the bus, one per message type: each returns
    what it left in the [Result] field of the message and its error. *)
Record Bus : Type := {
  on_IsStarredByUserQuery : Z → Z → B → bool * option Error * B;
  on_GetUserByIdQuery : Z → B → ptr User * option Error * B;
  on_GetDashboardQuery : string → Z → Z → B → ptr Dashboard * option Error * B;
  on_DeleteDashboardCommand : Z → Z → B → option Error * B;
  on_ValidateDashboardAlertsCommand : Z → Z → Dashboard → B → option Error * B;
  on_SaveDashboardCommand : SaveDashboardCommand → B → ptr Dashboard * option Error * B;
  on_UpdateDashboardAlertsCommand : Z → Z → ptr Dashboard → B → option Error * B
}.

(** The state a handler runs in. *)
Record HState : Type := {
  h_world : B;
  h_events : list Event
}.

(** What happened on the way from the state [s] to the state [s']. *)
Definition events_since (s s' : HState) : list Event :=
  drop (length (h_events s)) (h_events s').

(** A handler step: it panics, or returns and leaves a state.  Of a step
    that panics only the panic is kept; what it did before is told by the
    answers of the bus and of the guardian that led there. *)
Definition H (A : Type) : Type := HState → result (A * HState).

#[global] Instance H_ret : MRet H := λ A a s, Ok (a, s).
#[global] Instance H_bind : MBind H := λ A B f m s,
  match m s with
  | Ok (a, s') => f a s'
  | Panic p => Panic p
  end.

(** A step that may only panic. *)
Definition run {A : Type} (r : result A) : H A := λ s,
  match r with
  | Ok a => Ok (a, s)
  | Panic p => Panic p
  end.

Variable bus : Bus.

(** The guardian made by [guardian.NewDashboardGuardian(dashId, orgId,
    user)] and asked one of its checks. *)
Variable guardian :
  Check → Z → Z → SignedInUser → B → bool * option Error * B.

(** [ApiError] and [Json] of package [api], the field [Login] of
    [models.User], [Set] of [simplejson] with an integer value, and the
    constant [models.DashTypeDB]. *)
Variable ApiError : Z → string → option Error → Response.
Variable Json : Z → Body → Response.
Variable Login : User → string.
Variable Json_Set : simplejson_Json → string → Z → simplejson_Json.
Variable DashTypeDB : string.

(** [bus.Dispatch(&query)] for each message type. *)
Definition Dispatch_IsStarredByUserQuery (userId dashboardId : Z)
    : H (bool * option Error) := λ s,
  let '(res, err, w) := on_IsStarredByUserQuery bus userId dashboardId (h_world s) in
  Ok ((res, err),
      {| h_world := w;
         h_events := h_events s
                     ++ [Dispatched (IsStarredByUserQuery userId dashboardId) err] |}).

Definition Dispatch_GetUserByIdQuery (id : Z) : H (ptr User * option Error) := λ s,
  let '(res, err, w) := on_GetUserByIdQuery bus id (h_world s) in
  Ok ((res, err),
      {| h_world := w;
         h_events := h_events s ++ [Dispatched (GetUserByIdQuery id) err] |}).

Definition Dispatch_GetDashboardQuery (slug : string) (id orgId : Z)
    : H (ptr Dashboard * option Error) := λ s,
  let '(res, err, w) := on_GetDashboardQuery bus slug id orgId (h_world s) in
  Ok ((res, err),
      {| h_world := w;
         h_events := h_events s
                     ++ [Dispatched (GetDashboardQuery slug id orgId) err] |}).

Definition Dispatch_DeleteDashboardCommand (orgId id : Z) : H (option Error) := λ s,
  let '(err, w) := on_DeleteDashboardCommand bus orgId id (h_world s) in
  Ok (err,
      {| h_world := w;
         h_events := h_events s
                     ++ [Dispatched (DeleteDashboardCommand orgId id) err] |}).

(** [guardian.CanView()], [guardian.CanEdit()], [guardian.CanSave()] *)
Definition ask (check : Check) (dashId orgId : Z) (user : SignedInUser)
    : H (bool * option Error) := λ s,
  let '(allowed, err, w) := guardian check dashId orgId user (h_world s) in
  Ok ((allowed, err),
      {| h_world := w;
         h_events := h_events s ++ [Checked check dashId orgId user allowed err] |}).

(** [c.TimeRequest(timer)] *)
Definition TimeRequest (timer : string) : H unit := λ s,
  Ok (tt, {| h_world := h_world s;
             h_events := h_events s ++ [TimedRequest timer] |}).

(** [func isDashboardStarredByUser(c *middleware.Context, dashId int64)
    (bool, error)] *)
Definition isDashboardStarredByUser (c : middleware_Context) (dashId : Z)
    : H (bool * option Error) :=
  if negb (IsSignedIn c) then mret (false, None)
  else
    '(result, err) ← Dispatch_IsStarredByUserQuery (UserId c) dashId;
    match err with
    | Some e => mret (false, Some e)
    | None => mret (result, None)
    end.

(** [func getUserLogin(userId int64) string] *)
Definition getUserLogin (userId : Z) : H string :=
  '(result, err) ← Dispatch_GetUserByIdQuery userId;
  match err with
  | Some _ => mret "Anonymous"
  | None =>
      user ← run (deref result);
      mret (Login user)
  end.

(** [func getDashboardHelper(orgId int64, slug string, id int64)], which
    returns a pointer to [m.Dashboard] and a [Response]; a [nil] response is
    [None]. *)
Definition getDashboardHelper (orgId : Z) (slug : string) (id : Z)
    : H (ptr Dashboard * option Response) :=
  '(result, err) ← Dispatch_GetDashboardQuery slug id orgId;
  match err with
  | Some e => mret (None, Some (ApiError 404 "Dashboard not found" (Some e)))
  | None => mret (result, None)
  end.

(** [func DeleteDashboard(c *middleware.Context) Response] *)
Definition DeleteDashboard (c : middleware_Context) : H Response :=
  '(dash, rsp) ← getDashboardHelper (OrgId c) (Params c ":slug") 0;
  match rsp with
  | Some rsp => mret rsp
  | None =>
      dash ← run (deref dash);
      '(canSave, err) ← ask CanSave (Id dash) (OrgId c) (c_SignedInUser c);
      if bool_decide (is_Some err) || negb canSave
      then mret (dashboardGuardianResponse ApiError err)
      else
        err ← Dispatch_DeleteDashboardCommand (OrgId c) (Id dash);
        match err with
        | Some e => mret (ApiError 500 "Failed to delete dashboard" (Some e))
        | None => mret (Json 200 (BodyMap {[ "title" := Title dash ]}))
        end
  end.

(** [func GetDashboard(c *middleware.Context) Response] *)
Definition GetDashboard (c : middleware_Context) : H Response :=
  '(dash, rsp) ← getDashboardHelper (OrgId c) (Params c ":slug") 0;
  match rsp with
  | Some rsp => mret rsp
  | None =>
      dash ← run (deref dash);
      '(canView, err) ← ask CanView (Id dash) (OrgId c) (c_SignedInUser c);
      if bool_decide (is_Some err) || negb canView
      then mret (dashboardGuardianResponse ApiError err)
      else
        '(canEdit, _) ← ask CanEdit (Id dash) (OrgId c) (c_SignedInUser c);
        '(canSave, _) ← ask CanSave (Id dash) (OrgId c) (c_SignedInUser c);
        '(isStarred, err) ← isDashboardStarredByUser c (Id dash);
        match err with
        | Some e =>
            mret (ApiError 500 "Error while checking if dashboard was starred by user"
                    (Some e))
        | None =>
            updater ← (if 0 <? UpdatedBy dash then getUserLogin (UpdatedBy dash)
                       else mret "Anonymous");
            creator ← (if 0 <? CreatedBy dash then getUserLogin (CreatedBy dash)
                       else mret "Anonymous");
            let meta folderTitle :=
              {| Meta_IsStarred := isStarred;
                 Meta_Slug := Slug dash;
                 Meta_Type := DashTypeDB;
                 Meta_CanStar := IsSignedIn c;
                 Meta_CanSave := canSave;
                 Meta_CanEdit := canEdit;
                 Meta_Created := Created dash;
                 Meta_Updated := Updated dash;
                 Meta_UpdatedBy := updater;
                 Meta_CreatedBy := creator;
                 Meta_Version := Version dash;
                 Meta_HasAcl := HasAcl dash;
                 Meta_IsFolder := IsFolder dash;
                 Meta_FolderId := ParentId dash;
                 Meta_FolderTitle := folderTitle |} in
            folder ←
              (if 0 <? ParentId dash then
                 '(result, err) ← Dispatch_GetDashboardQuery "" (ParentId dash) (OrgId c);
                 match err with
                 | Some e =>
                     mret (inl (ApiError 500 "Dashboard folder could not be read"
                                  (Some e)))
                 | None =>
                     folder ← run (deref result);
                     mret (inr (Title folder))
                 end
               else mret (inr "Root"));
            match folder with
            | inl rsp => mret rsp
            | inr folderTitle =>
                let dto :=
                  {| Dto_Dashboard := Json_Set (Data dash) "version" (Version dash);
                     Dto_Meta := meta folderTitle |} in
                _ ← TimeRequest "M_Api_Dashboard_Get";
                mret (Json 200 (BodyDashboard dto))
            end
        end
  end.

(** [middleware.QuotaReached(c, target)] *)
Variable QuotaReached : middleware_Context → string → B → bool * option Error * B.

(** [cmd.GetDashboardModel()], the errors of package [models] that
    [PostDashboard] names, [err.Error()], the type assertion
    [err.(m.UpdatePluginDashboardError)] with the [PluginId] it gives, and the
    names of the plugins in [plugins.Plugins]. *)
Variable GetDashboardModel : SaveDashboardCommand → Dashboard.
Variables (ErrDashboardWithSameNameExists ErrDashboardVersionMismatch
           ErrDashboardNotFound ErrDashboardFolderCannotHaveParent
           ErrDashboardTitleEmpty : Error).
Variable Error_string : Error → string.
Variable as_UpdatePluginDashboardError : Error → option string.
Variable Plugins : gmap string string.
Context `{!EqDecision Error}.

Definition Dispatch_ValidateDashboardAlertsCommand (orgId userId : Z)
    (dash : Dashboard) : H (option Error) := λ s,
  let '(err, w) := on_ValidateDashboardAlertsCommand bus orgId userId dash (h_world s) in
  Ok (err,
      {| h_world := w;
         h_events := h_events s
                     ++ [Dispatched
                           (ValidateDashboardAlertsCommand orgId userId (Id dash)) err] |}).

Definition Dispatch_SaveDashboardCommand (cmd : SaveDashboardCommand)
    : H (ptr Dashboard * option Error) := λ s,
  let '(res, err, w) := on_SaveDashboardCommand bus cmd (h_world s) in
  Ok ((res, err),
      {| h_world := w;
         h_events := h_events s
                     ++ [Dispatched
                           (SaveDashboard (cmd_OrgId cmd) (cmd_UserId cmd)
                              (Id (GetDashboardModel cmd))) err] |}).

Definition Dispatch_UpdateDashboardAlertsCommand (orgId userId : Z)
    (dash : ptr Dashboard) : H (option Error) := λ s,
  let '(err, w) := on_UpdateDashboardAlertsCommand bus orgId userId dash (h_world s) in
  Ok (err,
      {| h_world := w;
         h_events := h_events s
                     ++ [Dispatched (UpdateDashboardAlertsCommand orgId userId) err] |}).

Definition ask_quota (c : middleware_Context) (target : string)
    : H (bool * option Error) := λ s,
  let '(reached, err, w) := QuotaReached c target (h_world s) in
  Ok ((reached, err),
      {| h_world := w;
         h_events := h_events s ++ [QuotaChecked target reached err] |}).

(** The block [if dash.Id > 0] of [PostDashboard]: the dashboard that
    [dash] points to afterwards. *)
Definition PostDashboard_existing (c : middleware_Context) (dash : Dashboard)
    : H Dashboard :=
  if 0 <? Id dash then
    '(existing, _) ← getDashboardHelper (OrgId c) "" (Id dash);
    match existing with
    | Some existing =>
        mret {| Id := Id dash; Slug := Slug dash; Title := Title dash;
                Version := Version dash; HasAcl := HasAcl existing;
                IsFolder := IsFolder dash; ParentId := ParentId dash;
                UpdatedBy := UpdatedBy dash; CreatedBy := CreatedBy dash;
                Created := Created dash; Updated := Updated dash;
                Data := Data dash |}
    | None => mret dash
    end
  else mret dash.

(** The block [if dash.Id == 0] of [PostDashboard]: the response it returns
    with, if it does. *)
Definition PostDashboard_quota (c : middleware_Context) (dash : Dashboard)
    : H (option Response) :=
  if bool_decide (Id dash = 0) then
    '(limitReached, err) ← ask_quota c "dashboard";
    match err with
    | Some e => mret (Some (ApiError 500 "failed to get quota" (Some e)))
    | None =>
        if limitReached : bool
        then mret (Some (ApiError 403 "Quota reached" None))
        else mret None
    end
  else mret None.

(** The block [if err != nil] after the save command of [PostDashboard]. *)
Definition PostDashboard_save_error (e : Error) : Response :=
  if bool_decide (e = ErrDashboardWithSameNameExists) then
    Json 412 (BodyMap {[ "status" := "name-exists"; "message" := Error_string e ]})
  else if bool_decide (e = ErrDashboardVersionMismatch) then
    Json 412 (BodyMap {[ "status" := "version-mismatch";
                         "message" := Error_string e ]})
  else
    match as_UpdatePluginDashboardError e with
    | Some pluginId =>
        let message :=
          match Plugins !! pluginId with
          | Some name => "The dashboard belongs to plugin " +:+ name +:+ "."
          | None => "The dashboard belongs to plugin " +:+ pluginId +:+ "."
          end in
        Json 412 (BodyMap {[ "status" := "plugin-dashboard"; "message" := message ]})
    | None =>
        if bool_decide (e = ErrDashboardNotFound) then
          Json 404 (BodyMap {[ "status" := "not-found"; "message" := Error_string e ]})
        else ApiError 500 "Failed to save dashboard" (Some e)
    end.

(** [PostDashboard] from the validation of the alerts on. *)
Definition PostDashboard_save (c : middleware_Context) (cmd : SaveDashboardCommand)
    (dash : Dashboard) : H Response :=
  err ← Dispatch_ValidateDashboardAlertsCommand (OrgId c) (UserId c) dash;
  match err with
  | Some e => mret (ApiError 500 "Invalid alert data. Cannot save dashboard" (Some e))
  | None =>
      '(result, err) ← Dispatch_SaveDashboardCommand cmd;
      match err with
      | Some e => mret (PostDashboard_save_error e)
      | None =>
          err ← Dispatch_UpdateDashboardAlertsCommand (OrgId c) (UserId c) result;
          match err with
          | Some e => mret (ApiError 500 "Failed to save alerts" (Some e))
          | None =>
              _ ← TimeRequest "M_Api_Dashboard_Save";
              saved ← run (deref result);
              mret (Json 200 (BodySaved "success" (Slug saved) (Version saved)
                                (Id saved)))
          end
      end
  end.

(** [func PostDashboard(c *middleware.Context, cmd m.SaveDashboardCommand)
    Response].  The command is passed by value; [dash] is the dashboard that
    [cmd.GetDashboardModel()] points to. *)
Definition PostDashboard (c : middleware_Context) (cmd : SaveDashboardCommand)
    : H Response :=
  let cmd :=
    {| cmd_OrgId := OrgId c; cmd_UserId := UserId c;
       cmd_Dashboard := cmd_Dashboard cmd; cmd_RestoredFrom := cmd_RestoredFrom cmd;
       cmd_Message := cmd_Message cmd; cmd_rest := cmd_rest cmd |} in
  dash ← PostDashboard_existing c (GetDashboardModel cmd);
  '(canSave, err) ← ask CanSave (Id dash) (OrgId c) (c_SignedInUser c);
  if bool_decide (is_Some err) || negb canSave
  then mret (dashboardGuardianResponse ApiError err)
  else if IsFolder dash && (0 <? ParentId dash)
  then mret (ApiError 400 (Error_string ErrDashboardFolderCannotHaveParent) None)
  else if bool_decide (Title dash = "")
  then mret (ApiError 400 (Error_string ErrDashboardTitleEmpty) None)
  else
    refused ← PostDashboard_quota c dash;
    match refused with
    | Some rsp => mret rsp
    | None => PostDashboard_save c cmd dash
    end.

End Handlers.

End Api.

(** ** A concrete bus

    A store of dashboards held in a list, a guardian that lets everybody
    view and editors save, and responses that record what they were built
    from. *)

Module ApiScenario.

Definition Json : Type := list (string * Z).

Inductive Response : Type :=
| ErrorResponse (status : Z) (message : string) (err : option string)
| JsonResponse (status : Z) (body : @Api.Body unit Json).

Definition find (slug : string) (id : Z) (store : list (@Api.Dashboard unit Json))
    : option (@Api.Dashboard unit Json) :=
  List.find (λ d, if id =? 0 then String.eqb (Api.Slug d) slug
                  else Api.Id d =? id) store.

Definition bus
    : @Api.Bus string string unit Json (list (@Api.Dashboard unit Json)) string :=
  {| Api.on_IsStarredByUserQuery := λ _ _ store, (false, None, store);
     Api.on_GetUserByIdQuery := λ _ store, (None, Some "user not found", store);
     Api.on_GetDashboardQuery := λ slug id _ store,
       match find slug id store with
       | Some d => (Some d, None, store)
       | None => (None, Some "dashboard not found", store)
       end;
     Api.on_DeleteDashboardCommand := λ _ id store,
       (None, List.filter (λ d, negb (Api.Id d =? id)) store);
     Api.on_ValidateDashboardAlertsCommand := λ _ _ _ store, (None, store);
     Api.on_SaveDashboardCommand := λ cmd store,
       let dash :=
         {| Api.Id := Z.of_nat (length store) + 100; Api.Slug := Api.cmd_rest cmd;
            Api.Title := Api.cmd_rest cmd; Api.Version := 1;
            Api.HasAcl := false; Api.IsFolder := false; Api.ParentId := 0;
            Api.UpdatedBy := Api.cmd_UserId cmd; Api.CreatedBy := Api.cmd_UserId cmd;
            Api.Created := tt; Api.Updated := tt;
            Api.Data := Api.cmd_Dashboard cmd |} in
       (Some dash, None, store ++ [dash]);
     Api.on_UpdateDashboardAlertsCommand := λ _ _ _ store, (None, store) |}.

(** The signed-in user is an editor, or is not. *)
Definition guardian (check : Api.Check) (dashId orgId : Z) (editor : bool)
    (store : list (@Api.Dashboard unit Json))
    : bool * option string * list (@Api.Dashboard unit Json) :=
  (match check with Api.CanView => true | _ => editor end, None, store).

(** A guardian that answers every check with the editor flag. *)
Definition editors_only (check : Api.Check) (dashId orgId : Z) (editor : bool)
    (store : list (@Api.Dashboard unit Json))
    : bool * option string * list (@Api.Dashboard unit Json) :=
  (editor, None, store).

(** A bus whose dashboard lookup finds nothing and says so without an
    error. *)
Definition silent_bus
    : @Api.Bus string string unit Json (list (@Api.Dashboard unit Json)) string :=
  {| Api.on_IsStarredByUserQuery := λ _ _ store, (false, None, store);
     Api.on_GetUserByIdQuery := λ _ store, (None, None, store);
     Api.on_GetDashboardQuery := λ _ _ _ store, (None, None, store);
     Api.on_DeleteDashboardCommand := λ _ _ store, (None, store);
     Api.on_ValidateDashboardAlertsCommand := λ _ _ _ store, (None, store);
     Api.on_SaveDashboardCommand := λ _ store, (None, None, store);
     Api.on_UpdateDashboardAlertsCommand := λ _ _ _ store, (None, store) |}.

Definition home : @Api.Dashboard unit Json :=
  {| Api.Id := 7; Api.Slug := "home"; Api.Title := "Home"; Api.Version := 3;
     Api.HasAcl := false; Api.IsFolder := false; Api.ParentId := 0;
     Api.UpdatedBy := 0; Api.CreatedBy := 0; Api.Created := tt;
     Api.Updated := tt; Api.Data := [] |}.

Definition start : @Api.HState string bool (list (@Api.Dashboard unit Json)) :=
  {| Api.h_world := [home]; Api.h_events := [] |}.

(** A request for the dashboard ["home"] of organization 1. *)
Definition request (signedIn editor : bool) : @Api.middleware_Context bool :=
  {| Api.IsSignedIn := signedIn; Api.UserId := 2; Api.OrgId := 1;
     Api.c_SignedInUser := editor;
     Api.Params := λ name, if String.eqb name ":slug" then "home" else "" |}.

Definition DeleteDashboard :=
  Api.DeleteDashboard bus guardian ErrorResponse JsonResponse.

(** The dashboard of a command: a new one, with the title kept in the rest
    of the command. *)
Definition model (cmd : @Api.SaveDashboardCommand Json string)
    : @Api.Dashboard unit Json :=
  {| Api.Id := 0; Api.Slug := ""; Api.Title := Api.cmd_rest cmd; Api.Version := 0;
     Api.HasAcl := false; Api.IsFolder := false; Api.ParentId := 0;
     Api.UpdatedBy := Api.cmd_UserId cmd; Api.CreatedBy := Api.cmd_UserId cmd;
     Api.Created := tt; Api.Updated := tt; Api.Data := Api.cmd_Dashboard cmd |}.

Definition command (title : string) : @Api.SaveDashboardCommand Json string :=
  {| Api.cmd_OrgId := 0; Api.cmd_UserId := 0; Api.cmd_Dashboard := [];
     Api.cmd_RestoredFrom := 0; Api.cmd_Message := ""; Api.cmd_rest := title |}.

(** The quota is reached when the store holds [limit] dashboards. *)
Definition quota (limit : nat) (c : @Api.middleware_Context bool) (target : string)
    (store : list (@Api.Dashboard unit Json))
    : bool * option string * list (@Api.Dashboard unit Json) :=
  (bool_decide (limit ≤ length store)%nat, None, store).

Definition PostDashboard (limit : nat) :=
  Api.PostDashboard bus guardian ErrorResponse JsonResponse (quota limit) model
    "name exists" "version mismatch" "not found" "folder cannot have parent"
    "title empty" (λ e : string, e) (λ _, None) ∅.

Definition GetDashboard :=
  Api.GetDashboard bus guardian ErrorResponse JsonResponse (λ login, login)
    (λ data key v, (key, v) :: data) "db".

End ApiScenario.

(** ** The scale builder and the configuration of [GraphNG] (TypeScript)

    An optional property ([p?: T]) is an [option]: [None] is [undefined].
    A property of type [number | null] that may also be missing is a
    [nullable]. *)

Module GraphNG.

(** [undefined], [null], or a value. *)
Inductive nullable (A : Type) : Type :=
| Undefined
| Null
| Value (a : A).
Arguments Undefined {A}.
Arguments Null {A}.
Arguments Value {A} a.

Section Config.

(** Types of other modules: numbers, colours, the theme, the time zone, a
    side of the plot, a display processor, what a field holds besides the
    properties read here, and the enumerations [GraphMode], [PointMode],
    [FieldType] and [AxisPlacement]. *)
Context {number Color Theme TimeZone Side Display FieldRest
         GraphMode PointMode FieldType AxisPlacement : Type}.
Context `{!EqDecision GraphMode, !EqDecision FieldType, !EqDecision AxisPlacement}.

(** [interface ScaleProps] *)
Record ScaleProps : Type := {
  scaleKey : string;
  isTime : option bool;
  min : nullable number;
  max : nullable number
}.

(** The scale configuration of [uPlot] that [getConfig] fills in. *)
Record Scale : Type := {
  time : bool;
  scale_min : nullable number;
  scale_max : nullable number
}.

(** [UPlotScaleBuilder.getConfig()]: an object with the one computed key
    [scaleKey]; [!!isTime] is [false] for [undefined]. *)
Definition getConfig (props : ScaleProps) : gmap string Scale :=
  {[ scaleKey props :=
       {| time := match isTime props with Some b => b | None => false end;
          scale_min := min props;
          scale_max := max props |} ]}.

(** [GraphFieldConfig] *)
Record GraphFieldConfig : Type := {
  mode : option GraphMode;
  points : option PointMode;
  axisPlacement : option AxisPlacement;
  axisLabel : option string;
  lineWidth : option number;
  pointRadius : option number;
  fillAlpha : option number
}.

(** A field of the aligned frame: [config.custom], [config.unit],
    [config.min], [config.max], [type], [display], [state.seriesIndex], and
    the rest. *)
Record Field : Type := {
  config_custom : option GraphFieldConfig;
  config_unit : option string;
  config_min : nullable number;
  config_max : nullable number;
  type : FieldType;
  display : option Display;
  state_seriesIndex : option nat;
  field_rest : FieldRest
}.

(** [field.display ?? defaultFormatter] *)
Inductive Formatter : Type :=
| defaultFormatter
| fieldDisplay (d : Display).

(** The properties handed to [addAxis]. *)
Record AxisProps : Type := {
  axis_scaleKey : string;
  axis_label : option string;
  axis_isTime : option bool;
  axis_side : Side;
  axis_grid : option bool;
  axis_formatValue : option Formatter;
  axis_timeZone : option TimeZone;
  axis_theme : Theme
}.

(** The properties handed to [addSeries]. *)
Record SeriesProps : Type := {
  series_scaleKey : string;
  series_line : bool;
  series_lineColor : Color;
  series_lineWidth : option number;
  series_points : option PointMode;
  series_pointSize : option number;
  series_pointColor : Color;
  series_fill : bool;
  series_fillOpacity : option number;
  series_fillColor : Color
}.

(** [LegendItem] *)
Record LegendItem : Type := {
  legend_color : Color;
  legend_label : string;
  legend_yAxis : Z
}.

(** A call on the builder, with the answer of [hasScale]. *)
Inductive BuilderCall : Type :=
| AddScale (props : ScaleProps)
| AddAxis (props : AxisProps)
| AddSeries (props : SeriesProps)
| HasScale (scale : string) (answer : bool).

(** The members of the enumerations that the component names. *)
Variables (Auto Bottom Right Left Hidden : AxisPlacement).
Variable Line : GraphMode.
Variable PointMode_Auto : PointMode.
Variable FieldType_number : FieldType.

(** [getUPlotSideFromAxis], the colour
    [getFieldColorModeForField(field).getCalculator(field, theme)(0, 0)],
    and [getFieldDisplayName(field, frame)].  The last two are handed the
    field object and may write to it: each comes with the field as it
    leaves it.  Of the frame they are handed the other fields to read. *)
Variable getUPlotSideFromAxis : AxisPlacement → Side.
Variable seriesColorOf : Field → Theme → Color * Field.
Variable getFieldDisplayName : Field → list Field → string * Field.

(** [UPlotConfigBuilder]: its state and the four methods used. *)
Context {Builder : Type}.
Variable addScale : ScaleProps → Builder → Builder.
Variable addAxis : AxisProps → Builder → Builder.
Variable addSeries : SeriesProps → Builder → Builder.
Variable hasScale : string → Builder → bool.

(** [const defaultConfig] *)
Definition defaultConfig : GraphFieldConfig :=
  {| mode := Some Line; points := Some PointMode_Auto;
     axisPlacement := Some Auto; axisLabel := None; lineWidth := None;
     pointRadius := None; fillAlpha := None |}.

(** The variables of the callback that builds the configuration: the
    builder and the calls made on it, [seriesIdx], [legendItems],
    [hasLeftAxis], [hasYAxis], and the fields already visited, as the loop
    left them. *)
Record Vars : Type := {
  builder : Builder;
  calls : list BuilderCall;
  seriesIdx : nat;
  legendItems : list LegendItem;
  hasLeftAxis : bool;
  hasYAxis : bool;
  visited : list Field
}.

Variable theme : Theme.
Variable timeZone : option TimeZone.

(** [hasLegend.current], as a truth value. *)
Variable hasLegend : bool.

(** The body of [for (let i = 0; i < alignedFrame.fields.length; i++)] for
    the field [field] at index [i], the fields [rest] still to come. *)
Definition body (timeIndex i : nat) (field : Field) (rest : list Field) (v : Vars)
    : Vars :=
  let customConfig := default defaultConfig (config_custom field) in
  if bool_decide (i = timeIndex) || negb (bool_decide (type field = FieldType_number))
  then
    {| builder := builder v; calls := calls v; seriesIdx := seriesIdx v;
       legendItems := legendItems v; hasLeftAxis := hasLeftAxis v;
       hasYAxis := hasYAxis v; visited := visited v ++ [field] |}
  else
    let fmt := match display field with
               | Some d => fieldDisplay d
               | None => defaultFormatter
               end in
    let scale := match config_unit field with
                 | Some u => if bool_decide (u = "") then "__fixed" else u
                 | None => "__fixed"
                 end in
    let side := match axisPlacement customConfig with
                | Some p => p
                | None => if hasLeftAxis v then Right else Left
                end in
    let known := hasScale scale (builder v) in
    let new_axis :=
      negb known && negb (bool_decide (axisPlacement customConfig = Some Hidden)) in
    let scaleProps :=
      {| scaleKey := scale; isTime := None;
         min := config_min field; max := config_max field |} in
    let axisProps :=
      {| axis_scaleKey := scale; axis_label := axisLabel customConfig;
         axis_isTime := None; axis_side := getUPlotSideFromAxis side;
         axis_grid := Some (negb (hasYAxis v)); axis_formatValue := Some fmt;
         axis_timeZone := None; axis_theme := theme |} in
    let builder1 :=
      if new_axis then addAxis axisProps (addScale scaleProps (builder v))
      else builder v in
    let calls1 :=
      calls v ++ [HasScale scale known]
      ++ (if new_axis then [AddScale scaleProps; AddAxis axisProps] else []) in
    let hasLeftAxis1 :=
      if new_axis && bool_decide (side = Left) then true else hasLeftAxis v in
    let hasYAxis1 := if new_axis then true else hasYAxis v in
    let field1 :=
      {| config_custom := config_custom field; config_unit := config_unit field;
         config_min := config_min field; config_max := config_max field;
         type := type field; display := display field;
         state_seriesIndex := Some (seriesIdx v);
         field_rest := field_rest field |} in
    let colored := seriesColorOf field1 theme in
    let seriesColor := colored.1 in
    let field2 := colored.2 in
    let seriesProps :=
      {| series_scaleKey := scale;
         series_line := bool_decide (default Line (mode customConfig) = Line);
         series_lineColor := seriesColor;
         series_lineWidth := lineWidth customConfig;
         series_points := points customConfig;
         series_pointSize := pointRadius customConfig;
         series_pointColor := seriesColor;
         series_fill := bool_decide (is_Some (fillAlpha customConfig));
         series_fillOpacity := fillAlpha customConfig;
         series_fillColor := seriesColor |} in
    let named := getFieldDisplayName field2 (visited v ++ field2 :: rest) in
    let item :=
      {| legend_color := seriesColor;
         legend_label := named.1;
         legend_yAxis := if bool_decide (side = Right) then 3 else 1 |} in
    {| builder := addSeries seriesProps builder1;
       calls := calls1 ++ [AddSeries seriesProps];
       seriesIdx := S (seriesIdx v);
       legendItems := legendItems v ++ (if hasLegend then [item] else []);
       hasLeftAxis := hasLeftAxis1;
       hasYAxis := hasYAxis1;
       visited := visited v ++ [if hasLegend then named.2 else field2] |}.

(** The loop over the fields, from index [i]. *)
Fixpoint loop (timeIndex i : nat) (fields : list Field) (v : Vars) : Vars :=
  match fields with
  | [] => v
  | field :: rest => loop timeIndex (S i) rest (body timeIndex i field rest v)
  end.

(** The callback of [useMemo] that builds the configuration, from a new
    builder [fresh], the fields of the aligned frame and the [timeIndex]
    that [getTimeField] found.  It leaves the builder, the legend items
    stored in [legendItemsRef.current], and the fields with their state. *)
Definition configBuilder (fresh : Builder) (fields : list Field)
    (timeIndex : option nat) : Vars :=
  let xScale :=
    match timeIndex with
    | None => {| scaleKey := "x"; isTime := None; min := Undefined; max := Undefined |}
    | Some _ =>
        {| scaleKey := "x"; isTime := Some true; min := Undefined; max := Undefined |}
    end in
  let xAxis :=
    {| axis_scaleKey := "x"; axis_label := None; axis_isTime := Some true;
       axis_side := getUPlotSideFromAxis Bottom; axis_grid := None;
       axis_formatValue := None; axis_timeZone := timeZone;
       axis_theme := theme |} in
  loop (default 0%nat timeIndex) 0 fields
    {| builder := addAxis xAxis (addScale xScale fresh);
       calls := [AddScale xScale; AddAxis xAxis];
       seriesIdx := 0; legendItems := []; hasLeftAxis := false;
       hasYAxis := false; visited := [] |}.

(** Whether the loop plots the field at index [i]: it is not the time
    field, and it holds numbers. *)
Definition plotted (timeIndex i : nat) (field : Field) : bool :=
  negb (bool_decide (i = timeIndex)
        || negb (bool_decide (type field = FieldType_number))).

(** The number of plotted fields among [fields], which start at index [i]. *)
Fixpoint count_plotted (timeIndex i : nat) (fields : list Field) : nat :=
  match fields with
  | [] => 0
  | field :: rest =>
      ((if plotted timeIndex i field then 1 else 0)
       + count_plotted timeIndex (S i) rest)%nat
  end.

(** The field with [state.seriesIndex] set. *)
Definition with_seriesIndex (n : nat) (field : Field) : Field :=
  {| config_custom := config_custom field; config_unit := config_unit field;
     config_min := config_min field; config_max := config_max field;
     type := type field; display := display field;
     state_seriesIndex := Some n; field_rest := field_rest field |}.

(** What a round of the loop leaves of a plotted field that it numbers
    [n]: the field with [state.seriesIndex] set, then handed to the colour
    lookup and, when there is a legend, to [getFieldDisplayName], which is
    given [frame] for the fields of the frame. *)
Definition left_of (n : nat) (field : Field) (frame : Field → list Field) : Field :=
  let field2 := (seriesColorOf (with_seriesIndex n field) theme).2 in
  if hasLegend then (getFieldDisplayName field2 (frame field2)).2 else field2.

(** The properties of the scales, axes and series among some calls. *)
Definition scales_of (l : list BuilderCall) : list ScaleProps :=
  omap (λ call, match call with AddScale p => Some p | _ => None end) l.
Definition axes_of (l : list BuilderCall) : list AxisProps :=
  omap (λ call, match call with AddAxis p => Some p | _ => None end) l.
Definition series_of (l : list BuilderCall) : list SeriesProps :=
  omap (λ call, match call with AddSeries p => Some p | _ => None end) l.

End Config.

End GraphNG.

(** ** A concrete frame

    A builder that keeps the keys of its scales in a list, and a frame with
    a time field and three number fields, two of them in the same unit. *)

Module GraphScenario.

Inductive AxisPlacement : Type := Auto | Top | Right | Bottom | Left | Hidden.
Inductive GraphMode : Type := Line | Bar | Points.
Inductive FieldType : Type := time | number | other.

#[global] Instance AxisPlacement_eq_dec : EqDecision AxisPlacement.
Proof. solve_decision. Defined.
#[global] Instance GraphMode_eq_dec : EqDecision GraphMode.
Proof. solve_decision. Defined.
#[global] Instance FieldType_eq_dec : EqDecision FieldType.
Proof. solve_decision. Defined.

(** Besides the properties read by the component, a field has a name and
    [state.displayName], where the display name is kept once computed. *)
Definition Field : Type :=
  @GraphNG.Field Z unit (string * option string) GraphMode unit FieldType
    AxisPlacement.

Definition field (name : string) (type : FieldType) (unit_of : option string)
    (custom : option (@GraphNG.GraphFieldConfig Z GraphMode unit AxisPlacement))
    : Field :=
  {| GraphNG.config_custom := custom; GraphNG.config_unit := unit_of;
     GraphNG.config_min := GraphNG.Undefined; GraphNG.config_max := GraphNG.Null;
     GraphNG.type := type; GraphNG.display := None;
     GraphNG.state_seriesIndex := None; GraphNG.field_rest := (name, None) |}.

(** A colour lookup that leaves the field alone, with the name of the field
    for its colour. *)
Definition seriesColorOf (f : Field) (theme : unit) : string * Field :=
  ((GraphNG.field_rest f).1, f).

(** [getFieldDisplayName]: the name kept in [state.displayName], or else the
    name of the field, which it then keeps there. *)
Definition getFieldDisplayName (f : Field) (frame : list Field) : string * Field :=
  match (GraphNG.field_rest f).2 with
  | Some name => (name, f)
  | None =>
      let name := (GraphNG.field_rest f).1 in
      (name,
       {| GraphNG.config_custom := GraphNG.config_custom f;
          GraphNG.config_unit := GraphNG.config_unit f;
          GraphNG.config_min := GraphNG.config_min f;
          GraphNG.config_max := GraphNG.config_max f;
          GraphNG.type := GraphNG.type f; GraphNG.display := GraphNG.display f;
          GraphNG.state_seriesIndex := GraphNG.state_seriesIndex f;
          GraphNG.field_rest := (name, Some name) |})
  end.

Definition frame : list Field :=
  [ field "time" time None None;
    field "inside" number (Some "celsius") None;
    field "humidity" number (Some "percent") None;
    field "outside" number (Some "celsius") None ].

Definition Builder : Type := list string.

Definition addScale (p : @GraphNG.ScaleProps Z) (b : Builder) : Builder :=
  GraphNG.scaleKey p :: b.
Definition addAxis (p : @GraphNG.AxisProps unit unit AxisPlacement unit)
    (b : Builder) : Builder := b.
Definition addSeries (p : @GraphNG.SeriesProps Z string unit) (b : Builder)
    : Builder := b.
Definition hasScale (key : string) (b : Builder) : bool := bool_decide (key ∈ b).

Definition configBuilder (hasLegend : bool) :=
  GraphNG.configBuilder Auto Bottom Right Left Hidden Line tt number
    (λ side, side) seriesColorOf getFieldDisplayName
    addScale addAxis addSeries hasScale tt None hasLegend [] frame (Some 0%nat).

End GraphScenario.

(** * Properties *)

Example ValidateScope_id_wildcard : ValidateScope "dashboards:id:*" = Ok true.
Proof. reflexivity. Qed.

Example ValidateScope_glued_wildcard : ValidateScope "dashboards:id*" = Ok false.
Proof. reflexivity. Qed.

Example ValidateScope_embedded_wildcard : ValidateScope "dash*boards:id:5" = Ok false.
Proof. reflexivity. Qed.

(** ** Strings seen from their last character *)

Section StringFacts.

Implicit Types (s p q : string) (c d : ascii).

Lemma app_String c s q : String c s +:+ q = String c (s +:+ q).
Proof. reflexivity. Qed.

Lemma app_snoc_assoc p c q : (p +:+ String c "") +:+ q = p +:+ String c q.
Proof. induction p as [|a p IH]; [done|]. by rewrite !app_String, IH. Qed.

Lemma length_snoc p c : String.length (p +:+ String c "") = S (String.length p).
Proof. induction p as [|a p IH]; [done|]. rewrite app_String. simpl. by rewrite IH. Qed.

Lemma substring_snoc p c :
  String.substring 0 (String.length p) (p +:+ String c "") = p.
Proof. induction p as [|a p IH]; [done|]. rewrite app_String. simpl. by rewrite IH. Qed.

Lemma get_snoc p c : String.get (String.length p) (p +:+ String c "") = Some c.
Proof. induction p as [|a p IH]; [done|]. rewrite app_String. simpl. by rewrite IH. Qed.

(** Every non-empty string is a prefix followed by its last character. *)
Lemma string_snoc_view s : s ≠ "" → ∃ p c, s = p +:+ String c "".
Proof.
  induction s as [|a s IH]; [done|]. intros _.
  destruct s as [|b s].
  - by exists "", a.
  - destruct IH as (p & c & ->); [done|]. by exists (String a p), c.
Qed.

Lemma snoc_inj p q c d : p +:+ String c "" = q +:+ String d "" → p = q ∧ c = d.
Proof.
  revert q. induction p as [|a p IH]; intros [|b q] H.
  - by injection H as ->.
  - rewrite app_String in H. injection H as -> H. by destruct q.
  - rewrite app_String in H. injection H as -> H. by destruct p.
  - rewrite !app_String in H. injection H as -> H.
    destruct (IH _ H) as [-> ->]. done.
Qed.

Lemma len_snoc p c : len (p +:+ String c "") = len p + 1.
Proof. unfold len. rewrite length_snoc. lia. Qed.

Lemma len_nonneg s : 0 <= len s.
Proof. unfold len. lia. Qed.

Lemma slice_to_snoc p c :
  slice_to (p +:+ String c "") (len (p +:+ String c "") - 1) = Ok p.
Proof.
  rewrite len_snoc. unfold slice_to. rewrite len_snoc.
  pose proof (len_nonneg p). rewrite decide_True by lia.
  replace (len p + 1 - 1) with (len p) by lia.
  unfold len. by rewrite Nat2Z.id, substring_snoc.
Qed.

Lemma index_snoc p c :
  index (p +:+ String c "") (len (p +:+ String c "") - 1) = Ok c.
Proof.
  rewrite len_snoc. unfold index. rewrite len_snoc.
  pose proof (len_nonneg p). rewrite decide_True by lia.
  replace (len p + 1 - 1) with (len p) by lia.
  unfold len. by rewrite Nat2Z.id, get_snoc.
Qed.

Lemma strings_ContainsAny_app p q chars :
  strings_ContainsAny (p +:+ q) chars
  = strings_ContainsAny p chars || strings_ContainsAny q chars.
Proof.
  induction p as [|a p IH]; [done|].
  rewrite app_String. simpl. by rewrite IH, orb_assoc.
Qed.

(** [ContainsAny] finds exactly the strings that hold one of the bytes. *)
Lemma strings_ContainsAny_true s chars :
  strings_ContainsAny s chars = true
  ↔ ∃ p c q, s = p +:+ String c q ∧ has_byte chars c = true.
Proof.
  split.
  - induction s as [|a s IH]; [done|]. simpl. intros [H|H]%orb_true_iff.
    + by exists "", a, s.
    + destruct (IH H) as (p & c & q & -> & Hc). by exists (String a p), c, q.
  - intros (p & c & q & -> & Hc). rewrite strings_ContainsAny_app. simpl.
    rewrite Hc. by rewrite orb_true_r.
Qed.

Lemma has_byte_wildcards c :
  has_byte "*?" c = true ↔ c = "*"%char ∨ c = "?"%char.
Proof.
  simpl. rewrite orb_false_r, orb_true_iff.
  by rewrite !Ascii.eqb_eq.
Qed.

End StringFacts.

(** ** What [ValidateScope] computes *)

Section ValidateScopeFacts.

Implicit Types (scope p q : string) (c d : ascii).

(** A scope that does not end in the wildcard. *)
Lemma ValidateScope_no_wildcard p c :
  c ≠ "*"%char →
  ValidateScope (p +:+ String c "") = Ok (negb (strings_ContainsAny p "*?")).
Proof.
  intros Hc. unfold ValidateScope.
  rewrite slice_to_snoc, index_snoc. simpl.
  apply Ascii.eqb_neq in Hc. by rewrite Hc, andb_false_r.
Qed.

(** A wildcard that follows the character [d]. *)
Lemma ValidateScope_wildcard_after q d :
  ValidateScope (q +:+ String d "*")
  = Ok (if negb (Ascii.eqb d ":") && negb (Ascii.eqb d "/") then false
        else negb (strings_ContainsAny (q +:+ String d "") "*?")).
Proof.
  rewrite <- (app_snoc_assoc q d "*"). unfold ValidateScope.
  rewrite slice_to_snoc, index_snoc. simpl.
  rewrite index_snoc, len_snoc.
  pose proof (len_nonneg q).
  replace (0 <? len q + 1) with true by (symmetry; apply Z.ltb_lt; lia).
  simpl. by destruct (negb (Ascii.eqb d ":") && negb (Ascii.eqb d "/")).
Qed.

End ValidateScopeFacts.

(** ** Claims about [ValidateScope] *)

Section ValidateScopeClaims.

Implicit Types (scope pre post : string) (c last : ascii).

Lemma strings_ContainsAny_wildcards s :
  strings_ContainsAny s "*?" = true ↔ occurs "*" s ∨ occurs "?" s.
Proof.
  rewrite strings_ContainsAny_true. unfold occurs. split.
  - intros (p & c & q & -> & [-> | ->]%has_byte_wildcards); eauto.
  - intros [(p & q & ->) | (p & q & ->)];
      [exists p, "*"%char, q | exists p, "?"%char, q]; done.
Qed.

Lemma strings_ContainsAny_snoc_separator pre c :
  c = ":"%char ∨ c = "/"%char →
  strings_ContainsAny (pre +:+ String c "") "*?" = strings_ContainsAny pre "*?".
Proof.
  intros Hc. rewrite strings_ContainsAny_app.
  destruct Hc as [-> | ->]; simpl; by rewrite orb_false_r.
Qed.

(** C1, as the code has it: a scope that ends in ['*'] preceded by [':'] or
    ['/'] is accepted exactly when no ['*'] and no ['?'] occurs before that
    separator ([ValidateScope] returns the negation of
    [strings.ContainsAny(prefix, "*?")]); a scope that ends in ['*'] preceded
    by any other character is rejected. *)
Theorem ValidateScope_trailing_wildcard pre c :
  (c = ":"%char ∨ c = "/"%char →
     ValidateScope (pre +:+ String c "*")
     = Ok (negb (strings_ContainsAny pre "*?")))
  ∧ (c ≠ ":"%char → c ≠ "/"%char →
     ValidateScope (pre +:+ String c "*") = Ok false).
Proof.
  rewrite ValidateScope_wildcard_after. split.
  - intros Hc. rewrite strings_ContainsAny_snoc_separator by done.
    by destruct Hc as [-> | ->].
  - intros H1%Ascii.eqb_neq H2%Ascii.eqb_neq. by rewrite H1, H2.
Qed.

Lemma ValidateScope_trailing_wildcard_witness :
  ValidateScope "dashboards:id:*" = Ok true
  ∧ ValidateScope "dashboards:id*" = Ok false.
Proof.
  split.
  - apply (proj1 (ValidateScope_trailing_wildcard "dashboards:id" ":")).
    by left.
  - apply (proj2 (ValidateScope_trailing_wildcard "dashboards:i" "d")); done.
Defined.

(** C1 as stated fails: this scope ends in ['*'], the wildcard is preceded by
    [':'], and the scope is rejected, because of the ['*'] further left. *)
Lemma ValidateScope_separator_wildcard_rejected :
  ValidateScope "dash*boards:*" = Ok false.
Proof. reflexivity. Qed.

(** C2, as the code has it: when [ValidateScope] accepts a scope that ends in
    ['*'] and has a character before the wildcard, that character is [':'] or
    ['/']. *)
Theorem ValidateScope_accepted_wildcard scope pre c :
  ValidateScope scope = Ok true →
  scope = pre +:+ String c "*" →
  c = ":"%char ∨ c = "/"%char.
Proof.
  intros Hv ->. rewrite ValidateScope_wildcard_after in Hv.
  destruct (decide (c = ":"%char)) as [|H1]; [by left|].
  destruct (decide (c = "/"%char)) as [|H2]; [by right|].
  apply Ascii.eqb_neq in H1, H2. by rewrite H1, H2 in Hv.
Qed.

Lemma ValidateScope_accepted_wildcard_witness :
  ValidateScope "dashboards:*" = Ok true
  ∧ (":"%char = ":"%char ∨ ":"%char = "/"%char).
Proof.
  split; [reflexivity|].
  apply (ValidateScope_accepted_wildcard "dashboards:*" "dashboards" ":");
    reflexivity.
Defined.

(** C2 as stated fails: the one-character scope ["*"], whose wildcard has no
    separator before it, is accepted (the check is skipped when the prefix
    is empty). *)
Lemma ValidateScope_lone_wildcard : ValidateScope "*" = Ok true.
Proof. reflexivity. Qed.

(** C3, as the code has it: [ValidateScope] returns a boolean on every
    non-empty scope; none of its string accesses is out of bounds there. *)
Theorem ValidateScope_total scope :
  scope ≠ "" → ∃ b, ValidateScope scope = Ok b.
Proof.
  intros (p & c & ->)%string_snoc_view.
  destruct (decide (c = "*"%char)) as [->|Hc].
  - destruct (decide (p = "")) as [->|Hp].
    + by exists true.
    + apply string_snoc_view in Hp as (q & d & ->).
      rewrite app_snoc_assoc, ValidateScope_wildcard_after. eauto.
  - rewrite ValidateScope_no_wildcard by done. eauto.
Qed.

Lemma ValidateScope_total_witness : ∃ b, ValidateScope "dashboards:*" = Ok b.
Proof. apply (ValidateScope_total "dashboards:*"). discriminate. Defined.

(** C3 as stated fails: on the empty scope no result is returned; the slice
    [scope[:len(scope)-1]] is [scope[:-1]], out of bounds. *)
Lemma ValidateScope_empty :
  ValidateScope "" = Panic (SliceBoundsOutOfRange (-1) 0).
Proof. reflexivity. Qed.

(** C4: a scope with a ['*'] or a ['?'] at a position before its final
    character is rejected. *)
Theorem ValidateScope_embedded_rejected pre c post last :
  c = "*"%char ∨ c = "?"%char →
  ValidateScope (pre +:+ String c (post +:+ String last "")) = Ok false.
Proof.
  intros Hc.
  assert (strings_ContainsAny (pre +:+ String c post) "*?" = true) as Hany.
  { apply strings_ContainsAny_true. exists pre, c, post.
    split; [done|]. by apply has_byte_wildcards. }
  replace (pre +:+ String c (post +:+ String last ""))
    with ((pre +:+ String c post) +:+ String last "").
  2:{ clear. induction pre as [|a pre IH]; [done|].
      by rewrite !app_String, IH. }
  destruct (decide (last = "*"%char)) as [->|Hl].
  - destruct (string_snoc_view (pre +:+ String c post)) as (q & d & Hq).
    { by destruct pre. }
    rewrite Hq in *. rewrite app_snoc_assoc, ValidateScope_wildcard_after.
    rewrite Hany. by destruct (negb _ && negb _).
  - rewrite ValidateScope_no_wildcard by done. by rewrite Hany.
Qed.

Lemma ValidateScope_embedded_rejected_witness :
  ValidateScope "dash*boards:id:5" = Ok false.
Proof.
  apply (ValidateScope_embedded_rejected "dash" "*" "boards:id:" "5").
  by left.
Defined.

(** C10: a non-empty scope whose last character is ['?'] and whose other
    characters hold no ['*'] and no ['?'] is accepted. *)
Theorem ValidateScope_trailing_question_mark pre :
  ¬ occurs "*" pre → ¬ occurs "?" pre →
  ValidateScope (pre +:+ "?") = Ok true.
Proof.
  intros Hstar Hq. rewrite ValidateScope_no_wildcard by done.
  destruct (strings_ContainsAny pre "*?") eqn:Hany; [|done].
  apply strings_ContainsAny_wildcards in Hany as [?|?]; done.
Qed.

Lemma no_wildcard_no_occurrence s :
  strings_ContainsAny s "*?" = false → ¬ occurs "*" s ∧ ¬ occurs "?" s.
Proof.
  intros Hany. split; intros H;
    (assert (strings_ContainsAny s "*?" = true) as Ht
       by (apply strings_ContainsAny_wildcards; auto));
    congruence.
Qed.

Lemma ValidateScope_trailing_question_mark_witness :
  ValidateScope "dashboards:id:?" = Ok true.
Proof.
  apply (ValidateScope_trailing_question_mark "dashboards:id:");
    apply (no_wildcard_no_occurrence "dashboards:id:"); reflexivity.
Defined.

End ValidateScopeClaims.

(** ** Claims about [BuildPermissionsMap] *)

Section BuildPermissionsMapClaims.

Implicit Types (permissions : list Permission) (m : gmap string bool).

(** On pointers that are not [nil] the loop never panics: it inserts the
    actions from left to right. *)
Lemma BuildPermissionsMap_range_Some permissions m :
  BuildPermissionsMap_range m (Some <$> permissions)
  = Ok (foldl (λ acc p, <[Action p := true]> acc) m permissions).
Proof.
  revert m. induction permissions as [|p permissions IH]; intros m; [done|].
  simpl. apply IH.
Qed.

Lemma lookup_foldl_insert_Action permissions m (a : string) :
  foldl (λ acc p, <[Action p := true]> acc) m permissions !! a
  = if decide (a ∈ Action <$> permissions) then Some true else m !! a.
Proof.
  revert m. induction permissions as [|p permissions IH]; intros m; [done|].
  simpl. rewrite IH. destruct (decide (a = Action p)) as [->|Hne].
  - rewrite lookup_insert_eq.
    rewrite (decide_True (P := Action p ∈ Action p :: _)) by apply list_elem_of_here.
    by case_decide.
  - rewrite lookup_insert_ne by done.
    destruct (decide (a ∈ Action <$> permissions)) as [Hin|Hnin].
    + rewrite decide_True; [done|]. by apply list_elem_of_further.
    + rewrite decide_False; [done|].
      intros [?|?]%elem_of_cons; done.
Qed.

(** A [nil] entry makes the loop panic at [p.Action]. *)
Lemma BuildPermissionsMap_nil_entry :
  BuildPermissionsMap [None] = Panic NilPointerDereference.
Proof. reflexivity. Qed.

(** C8: for every list of permissions, [BuildPermissionsMap] returns a map
    whose keys are exactly the actions that occur in the list, each mapped
    to [true]; for [[{A,X},{A,Y},{B,X}]] the keys are [A] and [B]. *)
Theorem BuildPermissionsMap_keys :
  (∀ permissions, ∃ m,
     BuildPermissionsMap (Some <$> permissions) = Ok m
     ∧ dom m = list_to_set (Action <$> permissions)
     ∧ ∀ a : string,
         m !! a = if decide (a ∈ Action <$> permissions) then Some true else None)
  ∧ (∀ A B X Y : string, ∃ m,
       BuildPermissionsMap
         [Some {| Action := A; Scope := X |};
          Some {| Action := A; Scope := Y |};
          Some {| Action := B; Scope := X |}] = Ok m
       ∧ dom m = {[A; B]}
       ∧ m !! A = Some true ∧ m !! B = Some true).
Proof.
  assert (∀ permissions, ∃ m,
     BuildPermissionsMap (Some <$> permissions) = Ok m
     ∧ dom m = list_to_set (Action <$> permissions)
     ∧ ∀ a : string,
         m !! a = if decide (a ∈ Action <$> permissions) then Some true else None)
    as Hgen.
  { intros permissions. eexists. split; [apply BuildPermissionsMap_range_Some|].
    assert (∀ a : string,
      foldl (λ acc p, <[Action p := true]> acc) (∅ : gmap string bool)
        permissions !! a
      = if decide (a ∈ Action <$> permissions) then Some true else None) as Hl.
    { intros a. by rewrite lookup_foldl_insert_Action, lookup_empty. }
    split; [|done].
    apply set_eq. intros a. rewrite elem_of_dom, Hl, elem_of_list_to_set.
    case_decide; split; try done; first [by eexists | by intros [? ?]]. }
  split; [done|].
  intros A B X Y.
  destruct (Hgen [{| Action := A; Scope := X |}; {| Action := A; Scope := Y |};
                   {| Action := B; Scope := X |}]) as (m & Hm & Hdom & Hl).
  exists m. split; [done|]. split.
  - rewrite Hdom. clear. simpl. apply set_eq. intros a.
    rewrite !elem_of_union, !elem_of_singleton, elem_of_empty. tauto.
  - rewrite !Hl. clear. simpl.
    split; rewrite decide_True; try done; rewrite !elem_of_cons; auto.
Qed.

End BuildPermissionsMapClaims.

(** ** Claims about [HasAccess] and [HasGlobalAccess] *)

Section HelperClaims.

Context {context_Context Evaluator Error UserFields W : Type}.

#[local] Abbreviation SignedInUser := (SignedInUser UserFields).
#[local] Abbreviation ReqContext := (ReqContext context_Context Error UserFields).
#[local] Abbreviation AccessControl := (AccessControl context_Context Evaluator Error UserFields W).
#[local] Abbreviation Fallback := (Fallback context_Context Error UserFields W).
#[local] Abbreviation State := (State context_Context Evaluator Error UserFields W).

Variable GlobalOrgID : Z.

Implicit Types (ac : AccessControl) (fallback : Fallback)
  (evaluator : Evaluator) (s : State).

(** The principal [HasGlobalAccess] hands to [Evaluate]. *)
Lemma global_user_fields (u : SignedInUser) :
  with_OrgName "" (with_OrgRole "" (with_OrgId GlobalOrgID u))
  = {| OrgId := GlobalOrgID; OrgName := ""; OrgRole := "";
       OtherFields := OtherFields u |}.
Proof. reflexivity. Qed.

Lemma calls_since_app s s' (l : list (Call context_Context Evaluator Error UserFields)) :
  st_calls s' = st_calls s ++ l → calls_since s s' = l.
Proof. intros H. unfold calls_since. by rewrite H, drop_app_length. Qed.

(** What the helpers do when the engine is disabled. *)
Lemma HasAccess_disabled_run ac fallback evaluator s w b c' w' :
  IsDisabled ac (st_world s) = (true, w) →
  fallback (st_c s) w = (b, c', w') →
  HasAccess ac fallback evaluator s
  = (b, {| st_c := c'; st_world := w';
           st_calls := (st_calls s ++ [CallIsDisabled]) ++ [CallFallback (st_c s)] |}).
Proof.
  intros Hd Hf. unfold HasAccess, mbind, M_bind, call_IsDisabled.
  rewrite Hd. unfold call_fallback. simpl. by rewrite Hf.
Qed.

Lemma HasGlobalAccess_disabled_run ac fallback evaluator s w b c' w' :
  IsDisabled ac (st_world s) = (true, w) →
  fallback (st_c s) w = (b, c', w') →
  HasGlobalAccess GlobalOrgID ac fallback evaluator s
  = (b, {| st_c := c'; st_world := w';
           st_calls := (st_calls s ++ [CallIsDisabled]) ++ [CallFallback (st_c s)] |}).
Proof.
  intros Hd Hf. unfold HasGlobalAccess, mbind, M_bind, call_IsDisabled.
  rewrite Hd. unfold call_fallback. simpl. by rewrite Hf.
Qed.

(** What the helpers do when the engine is enabled. *)
Lemma HasAccess_enabled_run ac fallback evaluator s w hasAccess err user' w' :
  IsDisabled ac (st_world s) = (false, w) →
  Evaluate ac (c_Req_Context (st_c s)) (c_SignedInUser (st_c s)) evaluator w
  = (hasAccess, err, user', w') →
  HasAccess ac fallback evaluator s
  = (match err with Some _ => false | None => hasAccess end,
     {| st_c := {| c_SignedInUser := user';
                   c_Req_Context := c_Req_Context (st_c s);
                   c_Logger :=
                     match err with
                     | Some e =>
                         c_Logger (st_c s)
                         ++ [{| log_msg := "Error from access control system";
                                log_key := "error"; log_err := e |}]
                     | None => c_Logger (st_c s)
                     end |};
        st_world := w';
        st_calls := (st_calls s ++ [CallIsDisabled])
                    ++ [CallEvaluate (c_Req_Context (st_c s))
                          (c_SignedInUser (st_c s)) evaluator] |}).
Proof.
  intros Hd He. unfold HasAccess, mbind, M_bind, call_IsDisabled.
  rewrite Hd. unfold read_c, call_Evaluate. simpl. rewrite He.
  destruct err; reflexivity.
Qed.

Lemma HasGlobalAccess_enabled_run ac fallback evaluator s w hasAccess err user' w' :
  IsDisabled ac (st_world s) = (false, w) →
  Evaluate ac (c_Req_Context (st_c s))
    {| OrgId := GlobalOrgID; OrgName := ""; OrgRole := "";
       OtherFields := OtherFields (c_SignedInUser (st_c s)) |} evaluator w
  = (hasAccess, err, user', w') →
  HasGlobalAccess GlobalOrgID ac fallback evaluator s
  = (match err with Some _ => false | None => hasAccess end,
     {| st_c := {| c_SignedInUser := c_SignedInUser (st_c s);
                   c_Req_Context := c_Req_Context (st_c s);
                   c_Logger :=
                     match err with
                     | Some e =>
                         c_Logger (st_c s)
                         ++ [{| log_msg := "Error from access control system";
                                log_key := "error"; log_err := e |}]
                     | None => c_Logger (st_c s)
                     end |};
        st_world := w';
        st_calls := (st_calls s ++ [CallIsDisabled])
                    ++ [CallEvaluate (c_Req_Context (st_c s))
                          {| OrgId := GlobalOrgID; OrgName := ""; OrgRole := "";
                             OtherFields := OtherFields (c_SignedInUser (st_c s)) |}
                          evaluator] |}).
Proof.
  intros Hd He. unfold HasGlobalAccess, mbind, M_bind, call_IsDisabled.
  rewrite Hd. unfold read_c, call_Evaluate. simpl.
  rewrite global_user_fields, He.
  destruct err; destruct s as [[u r l] w0 calls]; reflexivity.
Qed.

(** C5: with the engine enabled, a helper whose [Evaluate] call returns an
    error that is not [nil] returns [false], whatever [hasAccess] came with
    the error; this holds for [HasAccess] and for [HasGlobalAccess]. *)
Theorem helpers_deny_on_Evaluate_error ac fallback evaluator s w :
  IsDisabled ac (st_world s) = (false, w) →
  (∀ hasAccess (err : Error) user' w',
     Evaluate ac (c_Req_Context (st_c s)) (c_SignedInUser (st_c s)) evaluator w
     = (hasAccess, Some err, user', w') →
     (HasAccess ac fallback evaluator s).1 = false)
  ∧ (∀ hasAccess (err : Error) user' w',
     Evaluate ac (c_Req_Context (st_c s))
       {| OrgId := GlobalOrgID; OrgName := ""; OrgRole := "";
          OtherFields := OtherFields (c_SignedInUser (st_c s)) |} evaluator w
     = (hasAccess, Some err, user', w') →
     (HasGlobalAccess GlobalOrgID ac fallback evaluator s).1 = false).
Proof.
  intros Hd. split; intros hasAccess err user' w' He.
  - by rewrite (HasAccess_enabled_run _ fallback _ _ _ _ _ _ _ Hd He).
  - by rewrite (HasGlobalAccess_enabled_run _ fallback _ _ _ _ _ _ _ Hd He).
Qed.

(** The error is also written to the logger of the request context. *)
Lemma helpers_log_Evaluate_error ac fallback evaluator s w hasAccess err user' w' :
  IsDisabled ac (st_world s) = (false, w) →
  Evaluate ac (c_Req_Context (st_c s)) (c_SignedInUser (st_c s)) evaluator w
  = (hasAccess, Some err, user', w') →
  c_Logger (st_c (HasAccess ac fallback evaluator s).2)
  = c_Logger (st_c s)
    ++ [{| log_msg := "Error from access control system";
           log_key := "error"; log_err := err |}].
Proof.
  intros Hd He. by rewrite (HasAccess_enabled_run _ fallback _ _ _ _ _ _ _ Hd He).
Qed.

(** C6: with the engine disabled, each helper returns what the fallback
    predicate returns on the request context, leaves the request context and
    the world as the predicate left them, and has called [IsDisabled] and
    the predicate only: [Evaluate] is not called. *)
Theorem helpers_disabled_use_fallback ac fallback evaluator s w :
  IsDisabled ac (st_world s) = (true, w) →
  let via_fallback (r : bool * State) :=
    r.1 = (fallback (st_c s) w).1.1
    ∧ st_c r.2 = (fallback (st_c s) w).1.2
    ∧ st_world r.2 = (fallback (st_c s) w).2
    ∧ calls_since s r.2 = [CallIsDisabled; CallFallback (st_c s)]
    ∧ ∀ ctx user ev, CallEvaluate ctx user ev ∉ calls_since s r.2 in
  via_fallback (HasAccess ac fallback evaluator s)
  ∧ via_fallback (HasGlobalAccess GlobalOrgID ac fallback evaluator s).
Proof.
  intros Hd. destruct (fallback (st_c s) w) as [[b c'] w'] eqn:Hf.
  assert (∀ s' : State,
    st_calls s' = (st_calls s ++ [CallIsDisabled]) ++ [CallFallback (st_c s)] →
    calls_since s s' = [CallIsDisabled; CallFallback (st_c s)]) as Hcalls.
  { intros s' Hs'. apply calls_since_app. by rewrite Hs', <- app_assoc. }
  split.
  - rewrite (HasAccess_disabled_run _ _ evaluator _ _ _ _ _ Hd Hf). simpl.
    rewrite Hcalls by done. repeat split.
    intros ctx user ev [?|[?|?%elem_of_nil]%elem_of_cons]%elem_of_cons; done.
  - rewrite (HasGlobalAccess_disabled_run _ _ evaluator _ _ _ _ _ Hd Hf). simpl.
    rewrite Hcalls by done. repeat split.
    intros ctx user ev [?|[?|?%elem_of_nil]%elem_of_cons]%elem_of_cons; done.
Qed.

(** C7, as the code has it: with the engine enabled, [HasGlobalAccess] calls
    [Evaluate] once, on a principal whose organization ID is [GlobalOrgID]
    and whose organization role and organization name are empty, every
    other field holding what it holds in the signed-in principal, a slice,
    map or pointer field the same reference.  The struct of the signed-in
    principal is not assigned: each of its fields holds after the call what
    it held before, whatever [Evaluate] left in the copy.  The objects
    behind the references are not copied: the world after the call is the
    one [Evaluate] left, with what it wrote through the references that
    the copy shares with the signed-in principal. *)
Theorem HasGlobalAccess_principal ac fallback evaluator s w :
  IsDisabled ac (st_world s) = (false, w) →
  let userCopy :=
    {| OrgId := GlobalOrgID; OrgName := ""; OrgRole := "";
       OtherFields := OtherFields (c_SignedInUser (st_c s)) |} in
  let s' := (HasGlobalAccess GlobalOrgID ac fallback evaluator s).2 in
  calls_since s s'
  = [CallIsDisabled; CallEvaluate (c_Req_Context (st_c s)) userCopy evaluator]
  ∧ c_SignedInUser (st_c s') = c_SignedInUser (st_c s)
  ∧ st_world s'
    = (Evaluate ac (c_Req_Context (st_c s)) userCopy evaluator w).2.
Proof.
  intros Hd userCopy.
  destruct (Evaluate ac (c_Req_Context (st_c s)) userCopy evaluator w)
    as [[[hasAccess err] user'] w'] eqn:He.
  simpl.
  rewrite (HasGlobalAccess_enabled_run _ fallback _ _ _ _ _ _ _ Hd He). simpl.
  split; [|done]. apply calls_since_app. simpl. by rewrite <- app_assoc.
Qed.

End HelperClaims.

(** ** The helpers on the concrete request *)

Lemma helpers_deny_on_Evaluate_error_witness :
  (HasAccess Scenario.failing Scenario.ReqOrgAdmin "users:read" Scenario.start).1
  = false
  ∧ (HasGlobalAccess 0 Scenario.failing Scenario.ReqOrgAdmin "users:read"
       Scenario.start).1 = false.
Proof.
  destruct (helpers_deny_on_Evaluate_error 0 Scenario.failing
              Scenario.ReqOrgAdmin "users:read" Scenario.start tt eq_refl)
    as [H1 H2].
  split; [eapply H1 | eapply H2]; reflexivity.
Defined.

Lemma helpers_disabled_use_fallback_witness :
  (HasAccess Scenario.disabled Scenario.ReqOrgAdmin "users:read" Scenario.start).1
  = true
  ∧ (HasGlobalAccess 0 Scenario.disabled Scenario.ReqOrgAdmin "users:read"
       Scenario.start).1 = true.
Proof.
  destruct (helpers_disabled_use_fallback 0 Scenario.disabled
              Scenario.ReqOrgAdmin "users:read" Scenario.start tt eq_refl)
    as [[H1 _] [H2 _]].
  split; [exact H1 | exact H2].
Defined.

(** On the request whose principal has teams: the engine is handed the
    copy, sets the organization ID of the copy and writes to the teams.
    The signed-in principal keeps its organization ID and its reference to
    the teams, and the teams it leads to are the ones the engine wrote. *)
Lemma HasGlobalAccess_principal_witness :
  Sharing.Teams (c_SignedInUser (st_c Sharing.start)) (st_world Sharing.start)
  = Some [5]
  ∧ calls_since Sharing.start
      (HasGlobalAccess 0 Sharing.meddling (ReqOrgAdmin "Admin") "users:read"
         Sharing.start).2
    = [CallIsDisabled;
       CallEvaluate tt
         {| OrgId := 0; OrgName := ""; OrgRole := ""; OtherFields := 0%nat |}
         "users:read"]
  ∧ c_SignedInUser
      (st_c (HasGlobalAccess 0 Sharing.meddling (ReqOrgAdmin "Admin")
               "users:read" Sharing.start).2)
    = Sharing.user
  ∧ Sharing.Teams Sharing.user
      (st_world (HasGlobalAccess 0 Sharing.meddling (ReqOrgAdmin "Admin")
                   "users:read" Sharing.start).2)
    = Some [99].
Proof.
  split; [reflexivity|].
  destruct (HasGlobalAccess_principal 0 Sharing.meddling (ReqOrgAdmin "Admin")
              "users:read" Sharing.start (st_world Sharing.start) eq_refl)
    as (H1 & H2 & H3).
  split; [exact H1|]. split; [exact H2|].
  rewrite H3. reflexivity.
Defined.

(** C7 as stated fails: the signed-in principal has the organization name
    ["Main Org."], and the principal handed to [Evaluate] has an empty one,
    so a field besides the organization ID and role has changed. *)
Lemma HasGlobalAccess_clears_OrgName :
  OrgName (c_SignedInUser (st_c Scenario.start)) = "Main Org."
  ∧ calls_since Scenario.start
      (HasGlobalAccess 0 Scenario.granting Scenario.ReqOrgAdmin "users:read"
         Scenario.start).2
    = [CallIsDisabled;
       CallEvaluate tt
         {| OrgId := 0; OrgName := ""; OrgRole := ""; OtherFields := tt |}
         "users:read"].
Proof. split; reflexivity. Qed.

(** ** Claims about [dashboardGuardianResponse] *)

Section DashboardClaims.

Context {Error Response : Type}.
Variable ApiError : Z → string → option Error → Response.

(** The status code of a response. *)
Variable status : Response → Z.

(** C9: provided the response [ApiError] builds carries the status code it
    was given, [dashboardGuardianResponse] answers an error that is not
    [nil] with the 500 response ["Error while checking dashboard
    permissions"] and a [nil] error with the 403 response ["Access denied to
    this dashboard"]. *)
Theorem dashboardGuardianResponse_status (err : option Error) :
  (∀ code message e, status (ApiError code message e) = code) →
  (err ≠ None →
     dashboardGuardianResponse ApiError err
     = ApiError 500 "Error while checking dashboard permissions" err
     ∧ status (dashboardGuardianResponse ApiError err) = 500)
  ∧ (err = None →
     dashboardGuardianResponse ApiError err
     = ApiError 403 "Access denied to this dashboard" None
     ∧ status (dashboardGuardianResponse ApiError err) = 403).
Proof.
  intros Hstatus. unfold dashboardGuardianResponse.
  destruct err as [e|]; split; try done; intros _.
  - rewrite decide_True by eauto. by rewrite Hstatus.
  - rewrite decide_False by (by intros [? ?]). by rewrite Hstatus.
Qed.

End DashboardClaims.

Lemma dashboardGuardianResponse_status_witness :
  Scenario.status
    (dashboardGuardianResponse Scenario.ApiError (Some "database is locked"))
  = 500
  ∧ Scenario.status (dashboardGuardianResponse Scenario.ApiError None) = 403.
Proof.
  split.
  - apply (dashboardGuardianResponse_status Scenario.ApiError Scenario.status
             (Some "database is locked")); [reflexivity | discriminate].
  - apply (dashboardGuardianResponse_status Scenario.ApiError Scenario.status
             None); reflexivity.
Defined.

(** * Further properties *)

(** ** More about [ValidateScope] *)

Section ValidateScopeMore.

Implicit Types (scope p q pre : string) (c d last : ascii).

Lemma string_app_assoc p q r : (p +:+ q) +:+ r = p +:+ (q +:+ r).
Proof. induction p as [|a p IH]; [done|]. by rewrite !app_String, IH. Qed.

(** An accepted scope has no wildcard character before its last one. *)
Lemma ValidateScope_accepted_prefix pre last :
  ValidateScope (pre +:+ String last "") = Ok true →
  strings_ContainsAny pre "*?" = false.
Proof.
  intros Hv. destruct (decide (last = "*"%char)) as [->|Hl].
  - destruct (decide (pre = "")) as [->|Hp]; [done|].
    apply string_snoc_view in Hp as (q & d & ->).
    rewrite app_snoc_assoc, ValidateScope_wildcard_after in Hv.
    destruct (negb (Ascii.eqb d ":") && negb (Ascii.eqb d "/")); [done|].
    by destruct (strings_ContainsAny _ _).
  - rewrite ValidateScope_no_wildcard in Hv by done.
    by destruct (strings_ContainsAny _ _).
Qed.

(** The scopes [ValidateScope] accepts: no ['*'] and no ['?'] before the
    last character, and when the last character is ['*'] and is not alone,
    a [':'] or a ['/'] just before it. *)
Theorem ValidateScope_accepts_iff pre last :
  ValidateScope (pre +:+ String last "") = Ok true
  ↔ (¬ occurs "*" pre ∧ ¬ occurs "?" pre)
    ∧ (last = "*"%char →
       pre = "" ∨ ∃ q d, pre = q +:+ String d ""
                         ∧ (d = ":"%char ∨ d = "/"%char)).
Proof.
  split.
  - intros Hv. split.
    + apply no_wildcard_no_occurrence.
      by apply (ValidateScope_accepted_prefix pre last).
    + intros ->. destruct (decide (pre = "")) as [|Hp]; [by left|]. right.
      apply string_snoc_view in Hp as (q & d & ->). exists q, d. split; [done|].
      rewrite app_snoc_assoc, ValidateScope_wildcard_after in Hv.
      destruct (decide (d = ":"%char)) as [|H1]; [by left|].
      destruct (decide (d = "/"%char)) as [|H2]; [by right|].
      apply Ascii.eqb_neq in H1, H2. by rewrite H1, H2 in Hv.
  - intros [[Hs Hq] Hlast].
    assert (strings_ContainsAny pre "*?" = false) as Hany.
    { destruct (strings_ContainsAny pre "*?") eqn:E; [|done].
      apply strings_ContainsAny_wildcards in E as [?|?]; done. }
    destruct (decide (last = "*"%char)) as [->|Hl].
    + destruct (Hlast eq_refl) as [->|(q & d & -> & Hd)]; [done|].
      rewrite app_snoc_assoc, ValidateScope_wildcard_after, Hany.
      by destruct Hd as [-> | ->].
    + rewrite ValidateScope_no_wildcard by done. by rewrite Hany.
Qed.

(** A scope without ['*'] and ['?'] is accepted, provided it is not empty. *)
Theorem ValidateScope_plain_accepted scope :
  scope ≠ "" → ¬ occurs "*" scope → ¬ occurs "?" scope →
  ValidateScope scope = Ok true.
Proof.
  intros (pre & last & ->)%string_snoc_view Hs Hq.
  assert (last ≠ "*"%char) as Hl.
  { intros ->. apply Hs. by exists pre, "". }
  rewrite ValidateScope_no_wildcard by done.
  destruct (strings_ContainsAny pre "*?") eqn:E; [|done]. exfalso.
  apply strings_ContainsAny_wildcards in E as [(p & q & ->)|(p & q & ->)].
  - apply Hs. exists p, (q +:+ String last "").
    by rewrite string_app_assoc, app_String.
  - apply Hq. exists p, (q +:+ String last "").
    by rewrite string_app_assoc, app_String.
Qed.

Lemma ValidateScope_plain_accepted_witness :
  ValidateScope "dashboards:id:5" = Ok true.
Proof.
  apply (ValidateScope_plain_accepted "dashboards:id:5"); [discriminate|..];
    apply (no_wildcard_no_occurrence "dashboards:id:5"); reflexivity.
Defined.

(** Every non-empty proper prefix of an accepted scope is accepted. *)
Theorem ValidateScope_prefix_closed p q :
  p ≠ "" → q ≠ "" →
  ValidateScope (p +:+ q) = Ok true → ValidateScope p = Ok true.
Proof.
  intros (p' & c & ->)%string_snoc_view (q' & last & ->)%string_snoc_view Hv.
  rewrite <- string_app_assoc in Hv.
  apply ValidateScope_accepted_prefix in Hv.
  rewrite !strings_ContainsAny_app in Hv.
  apply orb_false_iff in Hv as [[Hp' Hc]%orb_false_iff _].
  assert (c ≠ "*"%char) as Hne by (by intros ->).
  rewrite ValidateScope_no_wildcard by done. by rewrite Hp'.
Qed.

Lemma ValidateScope_prefix_closed_witness :
  ValidateScope "dashboards:" = Ok true.
Proof.
  apply (ValidateScope_prefix_closed "dashboards:" "id:*");
    [discriminate | discriminate | reflexivity].
Defined.

End ValidateScopeMore.

(** ** More about [BuildPermissionsMap], and [GroupScopesByAction] *)

Section PermissionMaps.

Implicit Types (permissions : list Permission) (ptrs : list (ptr Permission)).

(** Both loops stop with a panic at the first [nil] entry and nowhere
    else. *)
Lemma BuildPermissionsMap_range_panics ptrs (m : gmap string bool) :
  (None ∈ ptrs → BuildPermissionsMap_range m ptrs = Panic NilPointerDereference)
  ∧ (None ∉ ptrs → ∃ m', BuildPermissionsMap_range m ptrs = Ok m').
Proof.
  revert m. induction ptrs as [|[p|] ptrs IH]; intros m; simpl.
  - split; [by intros ?%elem_of_nil | eauto].
  - destruct (IH (<[Action p := true]> m)) as [IH1 IH2]. split.
    + intros [?|?]%elem_of_cons; [done | auto].
    + intros [_ ?]%not_elem_of_cons. auto.
  - split; [done|]. intros []. apply list_elem_of_here.
Qed.

Lemma GroupScopesByAction_range_panics ptrs (m : gmap string (gset string)) :
  (None ∈ ptrs → GroupScopesByAction_range m ptrs = Panic NilPointerDereference)
  ∧ (None ∉ ptrs → ∃ m', GroupScopesByAction_range m ptrs = Ok m').
Proof.
  revert m. induction ptrs as [|[p|] ptrs IH]; intros m; simpl.
  - split; [by intros ?%elem_of_nil | eauto].
  - split.
    + intros [?|?]%elem_of_cons; [done|].
      destruct (m !! Action p); by apply IH.
    + intros [_ ?]%not_elem_of_cons.
      destruct (m !! Action p); by apply IH.
  - split; [done|]. intros []. apply list_elem_of_here.
Qed.

Lemma nil_entry_or_not ptrs : None ∈ ptrs ∨ None ∉ ptrs.
Proof.
  induction ptrs as [|[p|] ptrs [IH|IH]].
  - right. by intros ?%elem_of_nil.
  - left. by apply list_elem_of_further.
  - right. by intros [?|?]%elem_of_cons.
  - left. apply list_elem_of_here.
  - left. apply list_elem_of_here.
Qed.

(** [BuildPermissionsMap] and [GroupScopesByAction] panic (on [p.Action])
    exactly when the slice holds a [nil] pointer; on every other slice they
    return a map. *)
Theorem permission_maps_panic_iff_nil ptrs :
  (BuildPermissionsMap ptrs = Panic NilPointerDereference ↔ None ∈ ptrs)
  ∧ (GroupScopesByAction ptrs = Panic NilPointerDereference ↔ None ∈ ptrs)
  ∧ (None ∉ ptrs ↔ ∃ b g, BuildPermissionsMap ptrs = Ok b
                           ∧ GroupScopesByAction ptrs = Ok g).
Proof.
  destruct (BuildPermissionsMap_range_panics ptrs ∅) as [B1 B2].
  destruct (GroupScopesByAction_range_panics ptrs ∅) as [G1 G2].
  fold (BuildPermissionsMap ptrs) in B1, B2.
  fold (GroupScopesByAction ptrs) in G1, G2.
  destruct (nil_entry_or_not ptrs) as [Hin|Hnin].
  - repeat split; auto; try done.
    intros (b & g & Hb & _). rewrite B1 in Hb; done.
  - destruct (B2 Hnin) as [b Hb], (G2 Hnin) as [g Hg].
    repeat split; auto; try done.
    + by rewrite Hb.
    + by rewrite Hg.
    + eauto.
Qed.

(** The map of a concatenation is the union of the maps. *)
Theorem BuildPermissionsMap_app permissions1 permissions2 :
  BuildPermissionsMap (Some <$> (permissions1 ++ permissions2))
  = (m1 ← BuildPermissionsMap (Some <$> permissions1);
     m2 ← BuildPermissionsMap (Some <$> permissions2);
     mret (m1 ∪ m2)).
Proof.
  unfold BuildPermissionsMap. rewrite !BuildPermissionsMap_range_Some. simpl.
  unfold mret, result_ret. f_equal. apply map_eq. intros a.
  rewrite lookup_union, !lookup_foldl_insert_Action, lookup_empty, fmap_app.
  destruct (decide (a ∈ Action <$> permissions1)) as [H1|H1];
    destruct (decide (a ∈ Action <$> permissions2)) as [H2|H2];
    (rewrite decide_True by (rewrite elem_of_app; auto))
    || (rewrite decide_False by (rewrite elem_of_app; intros [?|?]; done));
    done.
Qed.

(** On pointers that are not [nil] the grouping loop is a left fold. *)
Lemma GroupScopesByAction_range_Some permissions (m : gmap string (gset string)) :
  GroupScopesByAction_range m (Some <$> permissions)
  = Ok (foldl (λ acc p, <[Action p := default ∅ (acc !! Action p) ∪ {[Scope p]}]> acc)
          m permissions).
Proof.
  revert m. induction permissions as [|p permissions IH]; intros m; [done|].
  simpl. destruct (m !! Action p) as [scopes|] eqn:E; rewrite IH; simpl; [done|].
  by rewrite (left_id_L ∅ (∪)).
Qed.

Lemma elem_of_foldl_group permissions (m : gmap string (gset string)) (a s : string) :
  s ∈ default ∅
        (foldl (λ acc p, <[Action p := default ∅ (acc !! Action p) ∪ {[Scope p]}]> acc)
           m permissions !! a)
  ↔ s ∈ default ∅ (m !! a) ∨ {| Action := a; Scope := s |} ∈ permissions.
Proof.
  revert m. induction permissions as [|[a' s'] permissions IH]; intros m; simpl.
  - rewrite elem_of_nil. tauto.
  - rewrite IH, elem_of_cons. destruct (decide (a' = a)) as [->|Hne].
    + rewrite lookup_insert_eq. simpl. rewrite elem_of_union, elem_of_singleton.
      split; [intros [[?| ->]|?] | intros [?|[[= ->]|?]]]; auto.
    + rewrite lookup_insert_ne by done.
      split; [intros [?|?] | intros [?|[[= ? ?]|?]]]; auto; done.
Qed.

Lemma is_Some_foldl_group permissions (m : gmap string (gset string)) (a : string) :
  is_Some
    (foldl (λ acc p, <[Action p := default ∅ (acc !! Action p) ∪ {[Scope p]}]> acc)
       m permissions !! a)
  ↔ is_Some (m !! a) ∨ a ∈ Action <$> permissions.
Proof.
  revert m. induction permissions as [|[a' s'] permissions IH]; intros m; simpl.
  - rewrite elem_of_nil. tauto.
  - rewrite IH, elem_of_cons. destruct (decide (a' = a)) as [->|Hne].
    + rewrite lookup_insert_eq. split; [auto|]. intros _. left. by eexists.
    + rewrite lookup_insert_ne by done.
      split; [intros [?|?] | intros [?|[?|?]]]; auto; done.
Qed.

(** [GroupScopesByAction] groups exactly: the scope [s] is in the set stored
    under the action [a] if and only if the permission [{a, s}] is in the
    list. *)
Theorem GroupScopesByAction_groups permissions :
  ∃ g, GroupScopesByAction (Some <$> permissions) = Ok g
       ∧ ∀ a s : string,
           (∃ scopes, g !! a = Some scopes ∧ s ∈ scopes)
           ↔ {| Action := a; Scope := s |} ∈ permissions.
Proof.
  eexists. split; [apply GroupScopesByAction_range_Some|]. intros a s.
  pose proof (elem_of_foldl_group permissions ∅ a s) as H.
  rewrite lookup_empty in H. simpl in H. rewrite elem_of_empty in H.
  split.
  - intros (scopes & Hl & Hs). rewrite Hl in H. simpl in H. tauto.
  - intros Hin.
    destruct (foldl _ _ _ !! a) as [scopes|] eqn:E; simpl in H.
    + exists scopes. split; [done|]. tauto.
    + exfalso. apply (not_elem_of_empty (C := gset string) s). tauto.
Qed.

(** [GroupScopesByAction] and [BuildPermissionsMap] have the same keys, and
    no action is grouped with an empty set of scopes. *)
Theorem GroupScopesByAction_keys permissions :
  ∃ g b, GroupScopesByAction (Some <$> permissions) = Ok g
         ∧ BuildPermissionsMap (Some <$> permissions) = Ok b
         ∧ dom g = dom b
         ∧ ∀ a scopes, g !! a = Some scopes → scopes ≠ ∅.
Proof.
  eexists _, _. split; [apply GroupScopesByAction_range_Some|].
  split; [apply BuildPermissionsMap_range_Some|]. split.
  - apply set_eq. intros a. rewrite !elem_of_dom, is_Some_foldl_group.
    rewrite lookup_foldl_insert_Action, !lookup_empty.
    case_decide; split; intros H'; auto.
    + destruct H' as [H'|H']; [done|]. by destruct H.
    + by destruct H'.
  - intros a scopes Hl.
    assert (is_Some (foldl
      (λ acc p, <[Action p := default ∅ (acc !! Action p) ∪ {[Scope p]}]> acc)
      (∅ : gmap string (gset string)) permissions !! a)) as Hs by (by eexists).
    apply is_Some_foldl_group in Hs as [[? Hs]|Hs]; [by rewrite lookup_empty in Hs|].
    apply list_elem_of_fmap in Hs as ([a' s] & -> & Hin).
    pose proof (elem_of_foldl_group permissions ∅ a' s) as H.
    simpl in Hl. rewrite Hl in H. simpl in H.
    intros ->. apply (not_elem_of_empty (C := gset string) s), H. by right.
Qed.

End PermissionMaps.

(** ** More about [HasAccess] and [HasGlobalAccess] *)

Section HelperMore.

Context {context_Context Evaluator Error UserFields W : Type}.

#[local] Abbreviation SignedInUser := (SignedInUser UserFields).
#[local] Abbreviation ReqContext := (ReqContext context_Context Error UserFields).
#[local] Abbreviation AccessControl :=
  (AccessControl context_Context Evaluator Error UserFields W).
#[local] Abbreviation Fallback := (Fallback context_Context Error UserFields W).
#[local] Abbreviation State := (State context_Context Evaluator Error UserFields W).

Variable GlobalOrgID : Z.

Implicit Types (ac : AccessControl) (fallback : Fallback)
  (evaluator : Evaluator) (s : State).

(** With the engine enabled and no error from [Evaluate], each helper
    returns the [hasAccess] that [Evaluate] returned. *)
Theorem helpers_return_Evaluate_result ac fallback evaluator s w :
  IsDisabled ac (st_world s) = (false, w) →
  (∀ hasAccess user' w',
     Evaluate ac (c_Req_Context (st_c s)) (c_SignedInUser (st_c s)) evaluator w
     = (hasAccess, None, user', w') →
     (HasAccess ac fallback evaluator s).1 = hasAccess)
  ∧ (∀ hasAccess user' w',
     Evaluate ac (c_Req_Context (st_c s))
       {| OrgId := GlobalOrgID; OrgName := ""; OrgRole := "";
          OtherFields := OtherFields (c_SignedInUser (st_c s)) |} evaluator w
     = (hasAccess, None, user', w') →
     (HasGlobalAccess GlobalOrgID ac fallback evaluator s).1 = hasAccess).
Proof.
  intros Hd. split; intros hasAccess user' w' He.
  - by rewrite (HasAccess_enabled_run _ fallback _ _ _ _ _ _ _ Hd He).
  - by rewrite (HasGlobalAccess_enabled_run _ _ fallback _ _ _ _ _ _ _ Hd He).
Qed.

(** With the engine enabled, [HasAccess] calls [IsDisabled] and then
    [Evaluate], once, on the signed-in principal as it is; the fallback
    predicate is not called. *)
Theorem HasAccess_principal ac fallback evaluator s w :
  IsDisabled ac (st_world s) = (false, w) →
  calls_since s (HasAccess ac fallback evaluator s).2
  = [CallIsDisabled;
     CallEvaluate (c_Req_Context (st_c s)) (c_SignedInUser (st_c s)) evaluator].
Proof.
  intros Hd.
  destruct (Evaluate ac (c_Req_Context (st_c s)) (c_SignedInUser (st_c s))
              evaluator w) as [[[hasAccess err] user'] w'] eqn:He.
  rewrite (HasAccess_enabled_run _ fallback _ _ _ _ _ _ _ Hd He). simpl.
  apply calls_since_app. simpl. by rewrite <- app_assoc.
Qed.

(** With the engine enabled, a helper writes to the logger of the request
    context exactly when [Evaluate] returned an error: one line, with that
    error. *)
Theorem helpers_log_exactly_errors ac fallback evaluator s w :
  IsDisabled ac (st_world s) = (false, w) →
  let line_for (r : bool * option Error * SignedInUser * W) :=
    match r.1.1.2 with
    | Some e => [{| log_msg := "Error from access control system";
                    log_key := "error"; log_err := e |}]
    | None => []
    end in
  c_Logger (st_c (HasAccess ac fallback evaluator s).2)
  = c_Logger (st_c s)
    ++ line_for (Evaluate ac (c_Req_Context (st_c s))
                   (c_SignedInUser (st_c s)) evaluator w)
  ∧ c_Logger (st_c (HasGlobalAccess GlobalOrgID ac fallback evaluator s).2)
    = c_Logger (st_c s)
      ++ line_for (Evaluate ac (c_Req_Context (st_c s))
                     {| OrgId := GlobalOrgID; OrgName := ""; OrgRole := "";
                        OtherFields := OtherFields (c_SignedInUser (st_c s)) |}
                     evaluator w).
Proof.
  intros Hd. simpl. split.
  - destruct (Evaluate ac (c_Req_Context (st_c s)) (c_SignedInUser (st_c s))
                evaluator w) as [[[hasAccess err] user'] w'] eqn:He.
    rewrite (HasAccess_enabled_run _ fallback _ _ _ _ _ _ _ Hd He). simpl.
    destruct err; [done|]. by rewrite app_nil_r.
  - destruct (Evaluate ac (c_Req_Context (st_c s)) _ evaluator w)
      as [[[hasAccess err] user'] w'] eqn:He.
    rewrite (HasGlobalAccess_enabled_run _ _ fallback _ _ _ _ _ _ _ Hd He). simpl.
    destruct err; [done|]. by rewrite app_nil_r.
Qed.

(** With the engine enabled, [HasGlobalAccess] is [HasAccess] run on the
    request context whose signed-in principal has been replaced by the
    global one: same result, same calls, same world and same log lines. *)
Theorem HasGlobalAccess_as_HasAccess ac fallback evaluator s w :
  IsDisabled ac (st_world s) = (false, w) →
  let global :=
    {| OrgId := GlobalOrgID; OrgName := ""; OrgRole := "";
       OtherFields := OtherFields (c_SignedInUser (st_c s)) |} in
  let s_global := (store_SignedInUser global s).2 in
  let r := HasGlobalAccess GlobalOrgID ac fallback evaluator s in
  let r' := HasAccess ac fallback evaluator s_global in
  r.1 = r'.1
  ∧ calls_since s r.2 = calls_since s_global r'.2
  ∧ st_world r.2 = st_world r'.2
  ∧ c_Logger (st_c r.2) = c_Logger (st_c r'.2).
Proof.
  intros Hd global s_global.
  destruct (Evaluate ac (c_Req_Context (st_c s)) global evaluator w)
    as [[[hasAccess err] user'] w'] eqn:He.
  pose proof (HasGlobalAccess_enabled_run GlobalOrgID ac fallback evaluator s w
                hasAccess err user' w' Hd He) as Hr.
  pose proof (HasAccess_enabled_run ac fallback evaluator s_global w
                hasAccess err user' w' Hd He) as Hr'.
  intros r r'. subst r r'. rewrite Hr, Hr'. simpl. split; [done|].
  split; [|done].
  rewrite !(calls_since_app _ _
              [CallIsDisabled; CallEvaluate (c_Req_Context (st_c s)) global evaluator]);
    [done| |]; simpl; by rewrite <- app_assoc.
Qed.

(** With the engine disabled, a helper given [ReqOrgAdmin] answers whether
    the organization role of the signed-in principal is [ROLE_ADMIN] (for
    [HasGlobalAccess] too: the role is not cleared on this path), and leaves
    the request context as it was. *)
Theorem helpers_disabled_ReqOrgAdmin (ROLE_ADMIN : string) ac evaluator s w :
  IsDisabled ac (st_world s) = (true, w) →
  let admin := bool_decide (OrgRole (c_SignedInUser (st_c s)) = ROLE_ADMIN) in
  let r := HasAccess ac (ReqOrgAdmin ROLE_ADMIN) evaluator s in
  let r' := HasGlobalAccess GlobalOrgID ac (ReqOrgAdmin ROLE_ADMIN) evaluator s in
  (r.1 = admin ∧ st_c r.2 = st_c s ∧ st_world r.2 = w)
  ∧ (r'.1 = admin ∧ st_c r'.2 = st_c s ∧ st_world r'.2 = w).
Proof.
  intros Hd. simpl. split.
  - by rewrite (HasAccess_disabled_run ac (ReqOrgAdmin ROLE_ADMIN) evaluator s w
                  _ _ _ Hd eq_refl).
  - by rewrite (HasGlobalAccess_disabled_run GlobalOrgID ac (ReqOrgAdmin ROLE_ADMIN)
                  evaluator s w _ _ _ Hd eq_refl).
Qed.

End HelperMore.

Lemma helpers_return_Evaluate_result_witness :
  (HasAccess Scenario.granting Scenario.ReqOrgAdmin "users:read" Scenario.start).1
  = true
  ∧ (HasGlobalAccess 0 Scenario.granting Scenario.ReqOrgAdmin "users:read"
       Scenario.start).1 = true.
Proof.
  destruct (helpers_return_Evaluate_result 0 Scenario.granting
              Scenario.ReqOrgAdmin "users:read" Scenario.start tt eq_refl)
    as [H1 H2].
  split; [eapply H1 | eapply H2]; reflexivity.
Defined.

Lemma HasAccess_principal_witness :
  calls_since Scenario.start
    (HasAccess Scenario.failing Scenario.ReqOrgAdmin "users:read"
       Scenario.start).2
  = [CallIsDisabled; CallEvaluate tt Scenario.user "users:read"].
Proof.
  exact (HasAccess_principal Scenario.failing Scenario.ReqOrgAdmin
           "users:read" Scenario.start tt eq_refl).
Defined.

Lemma helpers_log_exactly_errors_witness :
  c_Logger (st_c (HasAccess Scenario.failing Scenario.ReqOrgAdmin "users:read"
                    Scenario.start).2)
  = [{| log_msg := "Error from access control system"; log_key := "error";
        log_err := "store unreachable" |}]
  ∧ c_Logger (st_c (HasGlobalAccess 0 Scenario.granting Scenario.ReqOrgAdmin
                      "users:read" Scenario.start).2) = [].
Proof.
  split.
  - exact (proj1 (helpers_log_exactly_errors 0 Scenario.failing
                    Scenario.ReqOrgAdmin "users:read" Scenario.start tt eq_refl)).
  - exact (proj2 (helpers_log_exactly_errors 0 Scenario.granting
                    Scenario.ReqOrgAdmin "users:read" Scenario.start tt eq_refl)).
Defined.

Lemma HasGlobalAccess_as_HasAccess_witness :
  (HasGlobalAccess 0 Scenario.failing Scenario.ReqOrgAdmin "users:read"
     Scenario.start).1
  = (HasAccess Scenario.failing Scenario.ReqOrgAdmin "users:read"
       (store_SignedInUser
          {| OrgId := 0; OrgName := ""; OrgRole := ""; OtherFields := tt |}
          Scenario.start).2).1.
Proof.
  exact (proj1 (HasGlobalAccess_as_HasAccess 0 Scenario.failing
                  Scenario.ReqOrgAdmin "users:read" Scenario.start tt eq_refl)).
Defined.

Lemma helpers_disabled_ReqOrgAdmin_witness :
  (HasGlobalAccess 0 Scenario.disabled (ReqOrgAdmin "Admin") "users:read"
     Scenario.start).1 = true.
Proof.
  exact (proj1 (proj2 (helpers_disabled_ReqOrgAdmin 0 "Admin" Scenario.disabled
                         "users:read" Scenario.start tt eq_refl))).
Defined.

(** ** The dashboard handlers *)

Section HandlerFacts.

Context {Error Response SignedInUser User Time simplejson_Json B : Type}.
Context {CommandRest : Type}.

#[local] Abbreviation Dashboard := (@Api.Dashboard Time simplejson_Json).
#[local] Abbreviation middleware_Context := (@Api.middleware_Context SignedInUser).
#[local] Abbreviation Body := (@Api.Body Time simplejson_Json).
#[local] Abbreviation Event := (@Api.Event Error SignedInUser).
#[local] Abbreviation Bus := (@Api.Bus Error User Time simplejson_Json B CommandRest).
#[local] Abbreviation HState := (@Api.HState Error SignedInUser B).

Variable bus : Bus.
Variable guardian :
  Api.Check → Z → Z → SignedInUser → B → bool * option Error * B.
Variable ApiError : Z → string → option Error → Response.
Variable Json : Z → Body → Response.
Variable Login : User → string.
Variable Json_Set : simplejson_Json → string → Z → simplejson_Json.
Variable DashTypeDB : string.

Implicit Types (c : middleware_Context) (s : HState) (dash : Dashboard).

Lemma events_since_app s s' (l : list Event) :
  Api.h_events s' = Api.h_events s ++ l → Api.events_since s s' = l.
Proof. intros H. unfold Api.events_since. by rewrite H, drop_app_length. Qed.

Lemma events_since_refl s : Api.events_since s s = [].
Proof. apply events_since_app. by rewrite app_nil_r. Qed.

(** [isDashboardStarredByUser] never reports a starred dashboard together
    with an error; for a request that is not signed in it answers
    [(false, nil)] without dispatching anything. *)
Theorem isDashboardStarredByUser_outcomes c dashId s :
  ∃ starred err s',
    Api.isDashboardStarredByUser bus c dashId s = Ok ((starred, err), s')
    ∧ (is_Some err → starred = false)
    ∧ (Api.IsSignedIn c = false →
       starred = false ∧ err = None ∧ s' = s)
    ∧ (Api.IsSignedIn c = true →
       Api.events_since s s'
       = [Api.Dispatched (Api.IsStarredByUserQuery (Api.UserId c) dashId) err]).
Proof.
  unfold Api.isDashboardStarredByUser. destruct (Api.IsSignedIn c); simpl.
  - unfold mbind, Api.H_bind, Api.Dispatch_IsStarredByUserQuery.
    destruct (Api.on_IsStarredByUserQuery bus (Api.UserId c) dashId (Api.h_world s))
      as [[res err] w].
    destruct err as [e|]; simpl; eexists _, _, _; (split; [reflexivity|]);
      (split; [|split]); try done; try (by intros [? ?]);
      intros _; by apply events_since_app.
  - exists false, None, s. split; [done|]. split; [by intros [? ?]|]. done.
Qed.

(** [getDashboardHelper] returns a response exactly when the lookup came
    back with an error: the 404 response ["Dashboard not found"] with that
    error, and no dashboard; otherwise it returns the result of the query. *)
Theorem getDashboardHelper_result orgId slug id s :
  ∃ (found : ptr Dashboard) rsp s',
    Api.getDashboardHelper bus ApiError orgId slug id s = Ok ((found, rsp), s')
    ∧ match (Api.on_GetDashboardQuery bus slug id orgId (Api.h_world s)).1.2 with
      | Some e =>
          found = None
          ∧ rsp = Some (ApiError 404 "Dashboard not found" (Some e))
      | None =>
          found = (Api.on_GetDashboardQuery bus slug id orgId (Api.h_world s)).1.1
          ∧ rsp = None
      end.
Proof.
  unfold Api.getDashboardHelper, mbind, Api.H_bind, Api.Dispatch_GetDashboardQuery.
  destruct (Api.on_GetDashboardQuery bus slug id orgId (Api.h_world s))
    as [[res [e|]] w]; simpl; eauto 10.
Qed.

(** The runs of [DeleteDashboard], by what the bus and the guardian
    answer. *)
Lemma DeleteDashboard_run c s res lerr w1 :
  Api.on_GetDashboardQuery bus (Api.Params c ":slug") 0 (Api.OrgId c) (Api.h_world s)
  = (res, lerr, w1) →
  let looked_up :=
    Api.Dispatched (Api.GetDashboardQuery (Api.Params c ":slug") 0 (Api.OrgId c)) lerr in
  Api.DeleteDashboard bus guardian ApiError Json c s
  = match lerr, res with
    | Some e, _ =>
        Ok (ApiError 404 "Dashboard not found" (Some e),
            {| Api.h_world := w1; Api.h_events := Api.h_events s ++ [looked_up] |})
    | None, None => Panic NilPointerDereference
    | None, Some dash =>
        let '(canSave, gerr, w2) :=
          guardian Api.CanSave (Api.Id dash) (Api.OrgId c) (Api.c_SignedInUser c) w1 in
        let checked :=
          Api.Checked Api.CanSave (Api.Id dash) (Api.OrgId c) (Api.c_SignedInUser c)
            canSave gerr in
        if bool_decide (is_Some gerr) || negb canSave then
          Ok (dashboardGuardianResponse ApiError gerr,
              {| Api.h_world := w2;
                 Api.h_events := (Api.h_events s ++ [looked_up]) ++ [checked] |})
        else
          let '(derr, w3) :=
            Api.on_DeleteDashboardCommand bus (Api.OrgId c) (Api.Id dash) w2 in
          Ok (match derr with
              | Some e => ApiError 500 "Failed to delete dashboard" (Some e)
              | None => Json 200 (Api.BodyMap {[ "title" := Api.Title dash ]})
              end,
              {| Api.h_world := w3;
                 Api.h_events :=
                   ((Api.h_events s ++ [looked_up]) ++ [checked])
                   ++ [Api.Dispatched
                         (Api.DeleteDashboardCommand (Api.OrgId c) (Api.Id dash))
                         derr] |})
    end.
Proof.
  intros Hl. unfold Api.DeleteDashboard, Api.getDashboardHelper, mbind, Api.H_bind,
    Api.Dispatch_GetDashboardQuery.
  rewrite Hl. destruct lerr as [e|]; simpl; [done|].
  destruct res as [dash|]; simpl; [|done].
  unfold Api.ask. simpl.
  destruct (guardian Api.CanSave (Api.Id dash) (Api.OrgId c) (Api.c_SignedInUser c) w1)
    as [[canSave gerr] w2]. simpl.
  destruct (bool_decide (is_Some gerr) || negb canSave); [done|].
  unfold Api.Dispatch_DeleteDashboardCommand. simpl.
  destruct (Api.on_DeleteDashboardCommand bus (Api.OrgId c) (Api.Id dash) w2)
    as [[e|] w3]; done.
Qed.


(** When the guardian answers [CanSave] with an error or with [false],
    [DeleteDashboard] returns [dashboardGuardianResponse(err)] and the
    dashboard is not deleted: nothing is dispatched after the check. *)
Theorem DeleteDashboard_denied c s dash w1 canSave gerr w2 :
  Api.on_GetDashboardQuery bus (Api.Params c ":slug") 0 (Api.OrgId c) (Api.h_world s)
  = (Some dash, None, w1) →
  guardian Api.CanSave (Api.Id dash) (Api.OrgId c) (Api.c_SignedInUser c) w1
  = (canSave, gerr, w2) →
  is_Some gerr ∨ canSave = false →
  ∃ s', Api.DeleteDashboard bus guardian ApiError Json c s
        = Ok (dashboardGuardianResponse ApiError gerr, s')
        ∧ Api.h_world s' = w2
        ∧ Api.events_since s s'
          = [Api.Dispatched
               (Api.GetDashboardQuery (Api.Params c ":slug") 0 (Api.OrgId c)) None;
             Api.Checked Api.CanSave (Api.Id dash) (Api.OrgId c)
               (Api.c_SignedInUser c) canSave gerr].
Proof.
  intros Hl Hg Hdeny. rewrite (DeleteDashboard_run _ _ _ _ _ Hl). simpl.
  rewrite Hg.
  replace (bool_decide (is_Some gerr) || negb canSave) with true.
  2:{ symmetry. destruct Hdeny as [?| ->].
      - by rewrite bool_decide_eq_true_2.
      - by rewrite orb_true_r. }
  eexists. split; [reflexivity|]. split; [done|].
  apply events_since_app. simpl. by rewrite <- app_assoc.
Qed.

(** The first steps of [GetDashboard]: the lookup, then the [CanView]
    check. *)
Lemma GetDashboard_nil c s w1 :
  Api.on_GetDashboardQuery bus (Api.Params c ":slug") 0 (Api.OrgId c) (Api.h_world s)
  = (None, None, w1) →
  Api.GetDashboard bus guardian ApiError Json Login Json_Set DashTypeDB c s
  = Panic NilPointerDereference.
Proof.
  intros Hl. unfold Api.GetDashboard, Api.getDashboardHelper, mbind, Api.H_bind,
    Api.Dispatch_GetDashboardQuery.
  by rewrite Hl.
Qed.

(** When the lookup comes back without an error and without a dashboard,
    [DeleteDashboard] and [GetDashboard] panic at [dash.Id]. *)
Theorem handlers_nil_dashboard c s w1 :
  Api.on_GetDashboardQuery bus (Api.Params c ":slug") 0 (Api.OrgId c) (Api.h_world s)
  = (None, None, w1) →
  Api.DeleteDashboard bus guardian ApiError Json c s = Panic NilPointerDereference
  ∧ Api.GetDashboard bus guardian ApiError Json Login Json_Set DashTypeDB c s
    = Panic NilPointerDereference.
Proof.
  intros Hl. split.
  - by rewrite (DeleteDashboard_run _ _ _ _ _ Hl).
  - by apply GetDashboard_nil with w1.
Qed.

(** When the guardian answers [CanView] with an error or with [false],
    [GetDashboard] returns [dashboardGuardianResponse(err)] and stops:
    no other check is asked and nothing else is dispatched. *)
Theorem GetDashboard_denied c s dash w1 canView gerr w2 :
  Api.on_GetDashboardQuery bus (Api.Params c ":slug") 0 (Api.OrgId c) (Api.h_world s)
  = (Some dash, None, w1) →
  guardian Api.CanView (Api.Id dash) (Api.OrgId c) (Api.c_SignedInUser c) w1
  = (canView, gerr, w2) →
  is_Some gerr ∨ canView = false →
  ∃ s', Api.GetDashboard bus guardian ApiError Json Login Json_Set DashTypeDB c s
        = Ok (dashboardGuardianResponse ApiError gerr, s')
        ∧ Api.h_world s' = w2
        ∧ Api.events_since s s'
          = [Api.Dispatched
               (Api.GetDashboardQuery (Api.Params c ":slug") 0 (Api.OrgId c)) None;
             Api.Checked Api.CanView (Api.Id dash) (Api.OrgId c)
               (Api.c_SignedInUser c) canView gerr].
Proof.
  intros Hl Hg Hdeny.
  unfold Api.GetDashboard, Api.getDashboardHelper, mbind, Api.H_bind,
    Api.Dispatch_GetDashboardQuery.
  rewrite Hl. simpl. unfold Api.ask at 1. simpl. rewrite Hg. simpl.
  replace (bool_decide (is_Some gerr) || negb canView) with true.
  2:{ symmetry. destruct Hdeny as [?| ->].
      - by rewrite bool_decide_eq_true_2.
      - by rewrite orb_true_r. }
  eexists. split; [reflexivity|]. split; [done|].
  apply events_since_app. simpl. by rewrite <- app_assoc.
Qed.

(** A request that is not signed in, for a dashboard that is in no folder
    and has no recorded author, and that the guardian lets view: the answer
    is the 200 response with the dashboard, its ["version"] set, and meta
    data that say not starred, cannot star, [CanEdit] and [CanSave] as the
    guardian returned them (the errors of these two checks are dropped),
    ["Anonymous"] authors and the folder title ["Root"].  After the lookup
    only the guardian is asked. *)
Theorem GetDashboard_anonymous c s dash w1 w2 canEdit eerr w3 canSave serr w4 :
  Api.on_GetDashboardQuery bus (Api.Params c ":slug") 0 (Api.OrgId c) (Api.h_world s)
  = (Some dash, None, w1) →
  guardian Api.CanView (Api.Id dash) (Api.OrgId c) (Api.c_SignedInUser c) w1
  = (true, None, w2) →
  guardian Api.CanEdit (Api.Id dash) (Api.OrgId c) (Api.c_SignedInUser c) w2
  = (canEdit, eerr, w3) →
  guardian Api.CanSave (Api.Id dash) (Api.OrgId c) (Api.c_SignedInUser c) w3
  = (canSave, serr, w4) →
  Api.IsSignedIn c = false →
  Api.UpdatedBy dash <= 0 → Api.CreatedBy dash <= 0 → Api.ParentId dash <= 0 →
  ∃ s', Api.GetDashboard bus guardian ApiError Json Login Json_Set DashTypeDB c s
        = Ok (Json 200
                (Api.BodyDashboard
                   {| Api.Dto_Dashboard :=
                        Json_Set (Api.Data dash) "version" (Api.Version dash);
                      Api.Dto_Meta :=
                        {| Api.Meta_IsStarred := false;
                           Api.Meta_Slug := Api.Slug dash;
                           Api.Meta_Type := DashTypeDB;
                           Api.Meta_CanStar := false;
                           Api.Meta_CanSave := canSave;
                           Api.Meta_CanEdit := canEdit;
                           Api.Meta_Created := Api.Created dash;
                           Api.Meta_Updated := Api.Updated dash;
                           Api.Meta_UpdatedBy := "Anonymous";
                           Api.Meta_CreatedBy := "Anonymous";
                           Api.Meta_Version := Api.Version dash;
                           Api.Meta_HasAcl := Api.HasAcl dash;
                           Api.Meta_IsFolder := Api.IsFolder dash;
                           Api.Meta_FolderId := Api.ParentId dash;
                           Api.Meta_FolderTitle := "Root" |} |}), s')
        ∧ Api.h_world s' = w4
        ∧ Api.events_since s s'
          = [Api.Dispatched
               (Api.GetDashboardQuery (Api.Params c ":slug") 0 (Api.OrgId c)) None;
             Api.Checked Api.CanView (Api.Id dash) (Api.OrgId c)
               (Api.c_SignedInUser c) true None;
             Api.Checked Api.CanEdit (Api.Id dash) (Api.OrgId c)
               (Api.c_SignedInUser c) canEdit eerr;
             Api.Checked Api.CanSave (Api.Id dash) (Api.OrgId c)
               (Api.c_SignedInUser c) canSave serr;
             Api.TimedRequest "M_Api_Dashboard_Get"].
Proof.
  intros Hl Hview Hedit Hsave Hanon Hupd Hcre Hpar.
  unfold Api.GetDashboard, Api.getDashboardHelper, mbind, Api.H_bind,
    Api.Dispatch_GetDashboardQuery, Api.isDashboardStarredByUser, Api.ask,
    Api.TimeRequest.
  rewrite Hl. simpl. rewrite Hview. simpl. rewrite Hedit. simpl.
  rewrite Hsave. simpl. rewrite Hanon. simpl.
  replace (0 <? Api.UpdatedBy dash) with false by (symmetry; apply Z.ltb_ge; lia).
  replace (0 <? Api.CreatedBy dash) with false by (symmetry; apply Z.ltb_ge; lia).
  replace (0 <? Api.ParentId dash) with false by (symmetry; apply Z.ltb_ge; lia).
  simpl. eexists. split; [reflexivity|]. split; [done|].
  apply events_since_app. simpl. by rewrite <- !app_assoc.
Qed.

End HandlerFacts.

(** ** The handlers on the concrete bus *)


Lemma DeleteDashboard_denied_witness :
  ∃ s', ApiScenario.DeleteDashboard (ApiScenario.request true false)
          ApiScenario.start
        = Ok (ApiScenario.ErrorResponse 403 "Access denied to this dashboard" None, s')
        ∧ Api.h_world s' = [ApiScenario.home]
        ∧ Api.events_since ApiScenario.start s'
          = [Api.Dispatched (Api.GetDashboardQuery "home" 0 1) None;
             Api.Checked Api.CanSave 7 1 false false None].
Proof.
  apply (DeleteDashboard_denied ApiScenario.bus ApiScenario.guardian
           ApiScenario.ErrorResponse ApiScenario.JsonResponse
           (ApiScenario.request true false) ApiScenario.start ApiScenario.home
           [ApiScenario.home] false None [ApiScenario.home]);
    [reflexivity | reflexivity | by right].
Defined.

Lemma handlers_nil_dashboard_witness :
  Api.DeleteDashboard ApiScenario.silent_bus ApiScenario.guardian
    ApiScenario.ErrorResponse ApiScenario.JsonResponse
    (ApiScenario.request true true) ApiScenario.start
  = Panic NilPointerDereference
  ∧ Api.GetDashboard ApiScenario.silent_bus ApiScenario.guardian
      ApiScenario.ErrorResponse ApiScenario.JsonResponse (λ login, login)
      (λ data key v, (key, v) :: data) "db"
      (ApiScenario.request true true) ApiScenario.start
    = Panic NilPointerDereference.
Proof.
  apply (handlers_nil_dashboard ApiScenario.silent_bus ApiScenario.guardian
           ApiScenario.ErrorResponse ApiScenario.JsonResponse (λ login, login)
           (λ data key v, (key, v) :: data) "db"
           (ApiScenario.request true true) ApiScenario.start [ApiScenario.home]).
  reflexivity.
Defined.

Lemma GetDashboard_denied_witness :
  ∃ s', Api.GetDashboard ApiScenario.bus ApiScenario.editors_only
          ApiScenario.ErrorResponse ApiScenario.JsonResponse (λ login, login)
          (λ data key v, (key, v) :: data) "db"
          (ApiScenario.request true false) ApiScenario.start
        = Ok (ApiScenario.ErrorResponse 403 "Access denied to this dashboard" None, s')
        ∧ Api.h_world s' = [ApiScenario.home]
        ∧ Api.events_since ApiScenario.start s'
          = [Api.Dispatched (Api.GetDashboardQuery "home" 0 1) None;
             Api.Checked Api.CanView 7 1 false false None].
Proof.
  apply (GetDashboard_denied ApiScenario.bus ApiScenario.editors_only
           ApiScenario.ErrorResponse ApiScenario.JsonResponse (λ login, login)
           (λ data key v, (key, v) :: data) "db"
           (ApiScenario.request true false) ApiScenario.start ApiScenario.home
           [ApiScenario.home] false None [ApiScenario.home]);
    [reflexivity | reflexivity | by right].
Defined.

Lemma GetDashboard_anonymous_witness :
  ∃ s', ApiScenario.GetDashboard (ApiScenario.request false false)
          ApiScenario.start
        = Ok (ApiScenario.JsonResponse 200
                (Api.BodyDashboard
                   {| Api.Dto_Dashboard := [("version", 3)];
                      Api.Dto_Meta :=
                        {| Api.Meta_IsStarred := false;
                           Api.Meta_Slug := "home";
                           Api.Meta_Type := "db";
                           Api.Meta_CanStar := false;
                           Api.Meta_CanSave := false;
                           Api.Meta_CanEdit := false;
                           Api.Meta_Created := tt;
                           Api.Meta_Updated := tt;
                           Api.Meta_UpdatedBy := "Anonymous";
                           Api.Meta_CreatedBy := "Anonymous";
                           Api.Meta_Version := 3;
                           Api.Meta_HasAcl := false;
                           Api.Meta_IsFolder := false;
                           Api.Meta_FolderId := 0;
                           Api.Meta_FolderTitle := "Root" |} |}), s')
        ∧ Api.h_world s' = [ApiScenario.home]
        ∧ Api.events_since ApiScenario.start s'
          = [Api.Dispatched (Api.GetDashboardQuery "home" 0 1) None;
             Api.Checked Api.CanView 7 1 false true None;
             Api.Checked Api.CanEdit 7 1 false false None;
             Api.Checked Api.CanSave 7 1 false false None;
             Api.TimedRequest "M_Api_Dashboard_Get"].
Proof.
  apply (GetDashboard_anonymous ApiScenario.bus ApiScenario.guardian
           ApiScenario.ErrorResponse ApiScenario.JsonResponse (λ login, login)
           (λ data key v, (key, v) :: data) "db"
           (ApiScenario.request false false) ApiScenario.start ApiScenario.home
           [ApiScenario.home] [ApiScenario.home]
           false None [ApiScenario.home] false None [ApiScenario.home]);
    reflexivity || (simpl; lia).
Defined.

(** ** The configuration that [GraphNG] builds *)

Section GraphNGFacts.

Context {number Color Theme TimeZone Side Display FieldRest
         GraphMode PointMode FieldType AxisPlacement Builder : Type}.
Context `{!EqDecision GraphMode, !EqDecision FieldType, !EqDecision AxisPlacement}.

#[local] Abbreviation Field :=
  (@GraphNG.Field number Display FieldRest GraphMode PointMode FieldType AxisPlacement).
#[local] Abbreviation ScaleProps := (@GraphNG.ScaleProps number).
#[local] Abbreviation AxisProps := (@GraphNG.AxisProps Theme TimeZone Side Display).
#[local] Abbreviation SeriesProps := (@GraphNG.SeriesProps number Color PointMode).
#[local] Abbreviation BuilderCall :=
  (@GraphNG.BuilderCall number Color Theme TimeZone Side Display PointMode).
#[local] Abbreviation Vars :=
  (@GraphNG.Vars number Color Theme TimeZone Side Display FieldRest GraphMode
     PointMode FieldType AxisPlacement Builder).

Variables (Auto Bottom Right Left Hidden : AxisPlacement).
Variable Line : GraphMode.
Variable PointMode_Auto : PointMode.
Variable FieldType_number : FieldType.
Variable getUPlotSideFromAxis : AxisPlacement → Side.
Variable seriesColorOf : Field → Theme → Color * Field.
Variable getFieldDisplayName : Field → list Field → string * Field.
Variable addScale : ScaleProps → Builder → Builder.
Variable addAxis : AxisProps → Builder → Builder.
Variable addSeries : SeriesProps → Builder → Builder.
Variable hasScale : string → Builder → bool.
Variable theme : Theme.
Variable timeZone : option TimeZone.
Variable hasLegend : bool.

#[local] Abbreviation body :=
  (GraphNG.body Auto Right Left Hidden Line PointMode_Auto FieldType_number
     getUPlotSideFromAxis seriesColorOf getFieldDisplayName
     addScale addAxis addSeries hasScale theme hasLegend).
#[local] Abbreviation loop :=
  (GraphNG.loop Auto Right Left Hidden Line PointMode_Auto FieldType_number
     getUPlotSideFromAxis seriesColorOf getFieldDisplayName
     addScale addAxis addSeries hasScale theme hasLegend).
#[local] Abbreviation configBuilder :=
  (GraphNG.configBuilder Auto Bottom Right Left Hidden Line PointMode_Auto
     FieldType_number getUPlotSideFromAxis seriesColorOf getFieldDisplayName
     addScale addAxis addSeries hasScale theme timeZone hasLegend).
#[local] Abbreviation plotted := (GraphNG.plotted FieldType_number).
#[local] Abbreviation count_plotted := (GraphNG.count_plotted FieldType_number).
#[local] Abbreviation left_of :=
  (GraphNG.left_of seriesColorOf getFieldDisplayName theme hasLegend).

Implicit Types (v : Vars) (fields rest : list Field) (field : Field)
  (timeIndex i k n : nat).

(** One round of the loop: the field it leaves and the counter. *)
Lemma body_visited timeIndex i field rest v :
  GraphNG.visited (body timeIndex i field rest v)
  = GraphNG.visited v
    ++ [if plotted timeIndex i field
        then left_of (GraphNG.seriesIdx v) field
               (λ field2, GraphNG.visited v ++ field2 :: rest)
        else field]
  ∧ GraphNG.seriesIdx (body timeIndex i field rest v)
    = (GraphNG.seriesIdx v + if plotted timeIndex i field then 1 else 0)%nat.
Proof.
  unfold GraphNG.body, GraphNG.plotted, GraphNG.left_of.
  destruct (bool_decide (i = timeIndex)
            || negb (bool_decide (GraphNG.type field = FieldType_number)));
    simpl; split; auto with lia.
Qed.

(** The counter after the loop. *)
Lemma loop_seriesIdx timeIndex fields i v :
  GraphNG.seriesIdx (loop timeIndex i fields v)
  = (GraphNG.seriesIdx v + count_plotted timeIndex i fields)%nat.
Proof.
  revert i v. induction fields as [|field rest IH]; intros i v; simpl; [lia|].
  rewrite IH. destruct (body_visited timeIndex i field rest v) as [_ ->]. lia.
Qed.




(** One round of the loop: the calls it makes and the variables it sets. *)
Lemma body_spec timeIndex i field rest v :
  if plotted timeIndex i field then
    ∃ (sp : ScaleProps) (ap : AxisProps) (srp : SeriesProps) item (new_axis : bool),
      GraphNG.calls (body timeIndex i field rest v)
      = GraphNG.calls v
        ++ [GraphNG.HasScale (GraphNG.scaleKey sp)
              (hasScale (GraphNG.scaleKey sp) (GraphNG.builder v))]
        ++ (if new_axis then [GraphNG.AddScale sp; GraphNG.AddAxis ap] else [])
        ++ [GraphNG.AddSeries srp]
      ∧ GraphNG.builder (body timeIndex i field rest v)
        = addSeries srp
            (if new_axis then addAxis ap (addScale sp (GraphNG.builder v))
             else GraphNG.builder v)
      ∧ (new_axis = true → hasScale (GraphNG.scaleKey sp) (GraphNG.builder v) = false)
      ∧ GraphNG.axis_grid ap = Some (negb (GraphNG.hasYAxis v))
      ∧ GraphNG.hasYAxis (body timeIndex i field rest v)
        = new_axis || GraphNG.hasYAxis v
      ∧ GraphNG.legendItems (body timeIndex i field rest v)
        = GraphNG.legendItems v ++ (if hasLegend then [item] else [])
      ∧ (GraphNG.legend_yAxis item = 1 ∨ GraphNG.legend_yAxis item = 3)
  else
    GraphNG.calls (body timeIndex i field rest v) = GraphNG.calls v
    ∧ GraphNG.builder (body timeIndex i field rest v) = GraphNG.builder v
    ∧ GraphNG.hasYAxis (body timeIndex i field rest v) = GraphNG.hasYAxis v
    ∧ GraphNG.legendItems (body timeIndex i field rest v) = GraphNG.legendItems v.
Proof.
  unfold GraphNG.body, GraphNG.plotted.
  destruct (bool_decide (i = timeIndex)
            || negb (bool_decide (GraphNG.type field = FieldType_number)));
    simpl; [done|].
  match goal with
  | |- context [GraphNG.AddScale ?sp] =>
      match goal with
      | |- context [GraphNG.AddAxis ?ap] =>
          match goal with
          | |- context [GraphNG.AddSeries ?srp] =>
              match goal with
              | |- context [if hasLegend then [?item] else []] =>
                  match goal with
                  | |- context [if ?b then [GraphNG.AddScale sp; _] else []] =>
                      exists sp, ap, srp, item, b
                  end
              end
          end
      end
  end.
  simpl. rewrite <- !app_assoc. simpl.
  repeat split; try done.
  - by intros [->%negb_true_iff _]%andb_true_iff.
  - case_bool_decide; auto.
Qed.

Lemma loop_calls timeIndex fields i v :
  ∃ more, GraphNG.calls (loop timeIndex i fields v) = GraphNG.calls v ++ more.
Proof.
  revert i v. induction fields as [|field rest IH]; intros i v; simpl.
  - exists []. by rewrite app_nil_r.
  - destruct (IH (S i) (body timeIndex i field rest v)) as [more ->].
    pose proof (body_spec timeIndex i field rest v) as Hb.
    destruct (plotted timeIndex i field).
    + destruct Hb as (sp & ap & srp & item & new_axis & -> & _).
      rewrite <- app_assoc. eauto.
    + destruct Hb as (-> & _). eauto.
Qed.

Lemma loop_counts timeIndex fields i v :
  length (GraphNG.series_of (GraphNG.calls (loop timeIndex i fields v)))
  = (length (GraphNG.series_of (GraphNG.calls v))
     + count_plotted timeIndex i fields)%nat
  ∧ length (GraphNG.legendItems (loop timeIndex i fields v))
    = (length (GraphNG.legendItems v)
       + if hasLegend then count_plotted timeIndex i fields else 0)%nat
  ∧ (Forall (λ item, GraphNG.legend_yAxis item = 1 ∨ GraphNG.legend_yAxis item = 3)
       (GraphNG.legendItems v) →
     Forall (λ item, GraphNG.legend_yAxis item = 1 ∨ GraphNG.legend_yAxis item = 3)
       (GraphNG.legendItems (loop timeIndex i fields v))).
Proof.
  revert i v. induction fields as [|field rest IH]; intros i v; simpl.
  - rewrite !Nat.add_0_r. split; [done|]. split; [|done]. by destruct hasLegend.
  - destruct (IH (S i) (body timeIndex i field rest v)) as (-> & -> & HF).
    pose proof (body_spec timeIndex i field rest v) as Hb.
    destruct (plotted timeIndex i field).
    + destruct Hb as (sp & ap & srp & item & new_axis & Hc & _ & _ & _ & _ & Hl & Hy).
      rewrite Hc. rewrite Hl in HF |- *.
      unfold GraphNG.series_of. rewrite !omap_app, !length_app.
      split; [destruct new_axis; simpl; lia|].
      split; [destruct hasLegend; simpl; lia|].
      intros Hv. apply HF, Forall_app. split; [done|].
      destruct hasLegend; [by apply Forall_singleton | done].
    + destruct Hb as (Hc & _ & _ & Hl). rewrite Hc. rewrite Hl in HF |- *.
      done.
Qed.

(** One series is added for each plotted field and for no other; the
    legend has one item for each plotted field when the legend is shown and
    is empty when it is not; every item is on the y axis 1 or 3. *)
Theorem configBuilder_series_and_legend fresh fields (timeIndex : option nat) :
  let v := configBuilder fresh fields timeIndex in
  let n := count_plotted (default 0%nat timeIndex) 0 fields in
  length (GraphNG.series_of (GraphNG.calls v)) = n
  ∧ GraphNG.seriesIdx v = n
  ∧ length (GraphNG.legendItems v) = (if hasLegend then n else 0%nat)
  ∧ Forall (λ item, GraphNG.legend_yAxis item = 1 ∨ GraphNG.legend_yAxis item = 3)
      (GraphNG.legendItems v).
Proof.
  unfold GraphNG.configBuilder.
  match goal with
  | |- context [GraphNG.loop _ _ _ _ _ _ _ _ _ _ _ _ _ _ _ _ ?t ?i ?f ?v] =>
      destruct (loop_counts t f i v) as (H1 & H2 & H3);
      pose proof (loop_seriesIdx t f i v) as H4
  end.
  simpl in *. repeat split; auto.
Qed.

Lemma loop_axes timeIndex fields i v :
  ∃ new,
    GraphNG.axes_of (GraphNG.calls (loop timeIndex i fields v))
    = GraphNG.axes_of (GraphNG.calls v) ++ new
    ∧ ∀ k (a : AxisProps), new !! k = Some a →
        GraphNG.axis_grid a
        = Some (negb (GraphNG.hasYAxis v) && bool_decide (k = 0%nat)).
Proof.
  revert i v. induction fields as [|field rest IH]; intros i v; simpl.
  - exists []. by rewrite app_nil_r.
  - destruct (IH (S i) (body timeIndex i field rest v)) as (new & -> & Hnew).
    pose proof (body_spec timeIndex i field rest v) as Hb.
    destruct (plotted timeIndex i field).
    + destruct Hb as (sp & ap & srp & item & new_axis & Hc & _ & _ & Hg & Hy & _).
      rewrite Hc. rewrite Hy in Hnew. unfold GraphNG.axes_of.
      rewrite !omap_app. destruct new_axis; simpl.
      * exists (ap :: new). split; [by rewrite <- app_assoc|].
        intros [|k] a Hk; simpl in Hk.
        -- injection Hk as <-. by rewrite Hg, andb_true_r.
        -- rewrite (Hnew _ _ Hk). simpl. by rewrite andb_false_r.
      * exists new. rewrite ?app_nil_r. split; [done|]. exact Hnew.
    + destruct Hb as (Hc & _ & Hy & _). rewrite Hc. rewrite Hy in Hnew. eauto.
Qed.

(** Of the axes added for the fields, the first has its grid on and every
    later one has it off; they come after the x axis. *)
Theorem configBuilder_grid fresh fields (timeIndex : option nat) :
  ∃ (xAxis : AxisProps) ys,
    GraphNG.axes_of (GraphNG.calls (configBuilder fresh fields timeIndex))
    = xAxis :: ys
    ∧ GraphNG.axis_scaleKey xAxis = "x"
    ∧ ∀ k (a : AxisProps), ys !! k = Some a →
        GraphNG.axis_grid a = Some (bool_decide (k = 0%nat)).
Proof.
  unfold GraphNG.configBuilder.
  match goal with
  | |- context [GraphNG.loop _ _ _ _ _ _ _ _ _ _ _ _ _ _ _ _ ?t ?i ?f ?v] =>
      destruct (loop_axes t f i v) as (ys & -> & Hys)
  end.
  simpl. eexists _, ys. split; [reflexivity|]. split; [done|]. exact Hys.
Qed.

(** The builder is first given the scale ["x"] and the axis ["x"].  The
    configuration of that scale is a time scale exactly when the frame has a
    time field; the axis is a time axis either way, at the bottom, in the
    time zone of the panel. *)
Theorem configBuilder_x_domain fresh fields (timeIndex : option nat) :
  ∃ (xScale : ScaleProps) (xAxis : AxisProps) more,
    GraphNG.calls (configBuilder fresh fields timeIndex)
    = GraphNG.AddScale xScale :: GraphNG.AddAxis xAxis :: more
    ∧ GraphNG.getConfig xScale
      = {[ "x" := {| GraphNG.time := bool_decide (is_Some timeIndex);
                     GraphNG.scale_min := GraphNG.Undefined;
                     GraphNG.scale_max := GraphNG.Undefined |} ]}
    ∧ GraphNG.axis_scaleKey xAxis = "x"
    ∧ GraphNG.axis_isTime xAxis = Some true
    ∧ GraphNG.axis_side xAxis = getUPlotSideFromAxis Bottom
    ∧ GraphNG.axis_timeZone xAxis = timeZone.
Proof.
  unfold GraphNG.configBuilder.
  match goal with
  | |- context [GraphNG.loop _ _ _ _ _ _ _ _ _ _ _ _ _ _ _ _ ?t ?i ?f ?v] =>
      destruct (loop_calls t f i v) as (more & ->)
  end.
  simpl. eexists _, _, more. split; [reflexivity|].
  split; [|done]. by destruct timeIndex.
Qed.

Section BuilderLaws.

(** What [hasScale] is taken to answer: whether a scale with that key has
    been added; a new builder has none. *)
Variable fresh : Builder.
Hypothesis hasScale_fresh : ∀ key, hasScale key fresh = false.
Hypothesis hasScale_addScale : ∀ key (p : ScaleProps) b,
  hasScale key (addScale p b)
  = bool_decide (key = GraphNG.scaleKey p) || hasScale key b.
Hypothesis hasScale_addAxis : ∀ key (p : AxisProps) b,
  hasScale key (addAxis p b) = hasScale key b.
Hypothesis hasScale_addSeries : ∀ key (p : SeriesProps) b,
  hasScale key (addSeries p b) = hasScale key b.

(** The keys of the scales added so far. *)
#[local] Abbreviation keys v :=
  (GraphNG.scaleKey <$> GraphNG.scales_of (GraphNG.calls v)).

Lemma body_keys timeIndex i field rest v :
  (∀ key, hasScale key (GraphNG.builder v) = bool_decide (key ∈ keys v)) →
  NoDup (keys v) →
  (∀ key, hasScale key (GraphNG.builder (body timeIndex i field rest v))
          = bool_decide (key ∈ keys (body timeIndex i field rest v)))
  ∧ NoDup (keys (body timeIndex i field rest v)).
Proof.
  intros Hhas Hnd. pose proof (body_spec timeIndex i field rest v) as Hb.
  destruct (plotted timeIndex i field).
  - destruct Hb as (sp & ap & srp & item & new_axis & Hc & Hbld & Hnew & _).
    rewrite Hc, Hbld. unfold GraphNG.scales_of. rewrite !omap_app, !fmap_app.
    destruct new_axis; simpl; rewrite ?app_nil_r.
    + specialize (Hnew eq_refl). rewrite Hhas in Hnew.
      apply bool_decide_eq_false in Hnew. split.
      * intros key. rewrite hasScale_addSeries, hasScale_addAxis, hasScale_addScale.
        rewrite Hhas. apply eq_true_iff_eq.
        rewrite orb_true_iff, !bool_decide_eq_true, elem_of_app, list_elem_of_singleton.
        tauto.
      * apply NoDup_app. split; [done|]. split; [|apply NoDup_singleton].
        intros key Hin ->%list_elem_of_singleton. done.
    + split; [|done]. intros key. by rewrite hasScale_addSeries, Hhas.
  - destruct Hb as (Hc & Hbld & _). by rewrite Hc, Hbld.
Qed.

Lemma loop_keys timeIndex fields i v :
  (∀ key, hasScale key (GraphNG.builder v) = bool_decide (key ∈ keys v)) →
  NoDup (keys v) →
  NoDup (keys (loop timeIndex i fields v)).
Proof.
  revert i v. induction fields as [|field rest IH]; intros i v Hhas Hnd; [done|].
  simpl. destruct (body_keys timeIndex i field rest v Hhas Hnd) as [Hhas' Hnd'].
  by apply IH.
Qed.

(** With a builder whose [hasScale] tells whether a scale with the key has
    been added, no two scales of the configuration have the same key. *)
Theorem configBuilder_scales_distinct fields (timeIndex : option nat) :
  NoDup (keys (configBuilder fresh fields timeIndex)).
Proof.
  unfold GraphNG.configBuilder. apply loop_keys; simpl.
  - intros key. rewrite hasScale_addAxis, hasScale_addScale, hasScale_fresh.
    rewrite orb_false_r. apply eq_true_iff_eq.
    rewrite !bool_decide_eq_true, list_elem_of_singleton. by destruct timeIndex.
  - destruct timeIndex; apply NoDup_singleton.
Qed.

End BuilderLaws.

End GraphNGFacts.

(** ** Saving a dashboard *)

Section PostDashboardFacts.

Context {Error Response SignedInUser User Time simplejson_Json B : Type}.
Context {CommandRest : Type}.
Context `{!EqDecision Error}.

#[local] Abbreviation Dashboard := (@Api.Dashboard Time simplejson_Json).
#[local] Abbreviation middleware_Context := (@Api.middleware_Context SignedInUser).
#[local] Abbreviation Body := (@Api.Body Time simplejson_Json).
#[local] Abbreviation Event := (@Api.Event Error SignedInUser).
#[local] Abbreviation Bus := (@Api.Bus Error User Time simplejson_Json B CommandRest).
#[local] Abbreviation HState := (@Api.HState Error SignedInUser B).
#[local] Abbreviation SaveDashboardCommand :=
  (@Api.SaveDashboardCommand simplejson_Json CommandRest).

Variable bus : Bus.
Variable guardian :
  Api.Check → Z → Z → SignedInUser → B → bool * option Error * B.
Variable ApiError : Z → string → option Error → Response.
Variable Json : Z → Body → Response.
Variable QuotaReached : middleware_Context → string → B → bool * option Error * B.
Variable GetDashboardModel : SaveDashboardCommand → Dashboard.
Variables (ErrDashboardWithSameNameExists ErrDashboardVersionMismatch
           ErrDashboardNotFound ErrDashboardFolderCannotHaveParent
           ErrDashboardTitleEmpty : Error).
Variable Error_string : Error → string.
Variable as_UpdatePluginDashboardError : Error → option string.
Variable Plugins : gmap string string.

#[local] Abbreviation PostDashboard :=
  (Api.PostDashboard bus guardian ApiError Json QuotaReached GetDashboardModel
     ErrDashboardWithSameNameExists ErrDashboardVersionMismatch
     ErrDashboardNotFound ErrDashboardFolderCannotHaveParent
     ErrDashboardTitleEmpty Error_string as_UpdatePluginDashboardError Plugins).
#[local] Abbreviation PostDashboard_save :=
  (Api.PostDashboard_save bus ApiError Json GetDashboardModel
     ErrDashboardWithSameNameExists ErrDashboardVersionMismatch
     ErrDashboardNotFound Error_string as_UpdatePluginDashboardError Plugins).

Implicit Types (c : middleware_Context) (cmd : SaveDashboardCommand)
  (s : HState) (dash : Dashboard) (ev : Event).

(** The command as [PostDashboard] dispatches it: with the organization and
    the user of the request. *)
#[local] Abbreviation stamped c cmd :=
  {| Api.cmd_OrgId := Api.OrgId c; Api.cmd_UserId := Api.UserId c;
     Api.cmd_Dashboard := Api.cmd_Dashboard cmd;
     Api.cmd_RestoredFrom := Api.cmd_RestoredFrom cmd;
     Api.cmd_Message := Api.cmd_Message cmd;
     Api.cmd_rest := Api.cmd_rest cmd |}.

(** The lookup of the existing dashboard never fails the request: it
    changes [HasAcl] at most, and dispatches lookups only. *)
Lemma PostDashboard_existing_spec c dash s :
  ∃ dash' s1 evs,
    Api.PostDashboard_existing bus ApiError c dash s = Ok (dash', s1)
    ∧ Api.h_events s1 = Api.h_events s ++ evs
    ∧ Api.Id dash' = Api.Id dash
    ∧ Api.IsFolder dash' = Api.IsFolder dash
    ∧ Api.ParentId dash' = Api.ParentId dash
    ∧ Api.Title dash' = Api.Title dash
    ∧ ∀ ev, ev ∈ evs →
        ∃ slug id orgId e, ev = Api.Dispatched (Api.GetDashboardQuery slug id orgId) e.
Proof.
  unfold Api.PostDashboard_existing.
  destruct (0 <? Api.Id dash).
  - unfold Api.getDashboardHelper, mbind, Api.H_bind, Api.Dispatch_GetDashboardQuery.
    destruct (Api.on_GetDashboardQuery bus "" (Api.Id dash) (Api.OrgId c)
                (Api.h_world s)) as [[res [e|]] w1]; simpl;
      [|destruct res as [existing|]; simpl];
      eexists _, _, [_]; (split; [reflexivity|]); repeat split; try done;
      intros ev ->%list_elem_of_singleton; eauto.
  - exists dash, s, []. rewrite app_nil_r. repeat split; try done.
    by intros ev ?%elem_of_nil.
Qed.

Lemma PostDashboard_quota_spec c dash s refused s1 :
  Api.PostDashboard_quota ApiError QuotaReached c dash s = Ok (refused, s1) →
  ∃ evs,
    Api.h_events s1 = Api.h_events s ++ evs
    ∧ (∀ ev, ev ∈ evs → ∃ reached e, ev = Api.QuotaChecked "dashboard" reached e)
    ∧ (refused = None → Api.Id dash = 0 →
       Api.QuotaChecked "dashboard" false None ∈ evs).
Proof.
  unfold Api.PostDashboard_quota. case_bool_decide as Hid.
  - unfold mbind, Api.H_bind, Api.ask_quota.
    destruct (QuotaReached c "dashboard" (Api.h_world s)) as [[reached [e|]] w1];
      simpl; [|destruct reached]; intros [= <- <-]; eexists [_];
      (split; [reflexivity|]);
      (split; [intros ev ->%list_elem_of_singleton; eauto|]);
      try done.
    intros _ _. apply list_elem_of_here.
  - intros [= <- <-]. exists []. rewrite app_nil_r.
    split; [done|]. split; [by intros ev ?%elem_of_nil | done].
Qed.

Lemma PostDashboard_save_spec c cmd dash s rsp s1 :
  PostDashboard_save c cmd dash s = Ok (rsp, s1) →
  ∃ verr rest,
    Api.h_events s1
    = Api.h_events s
      ++ Api.Dispatched
           (Api.ValidateDashboardAlertsCommand (Api.OrgId c) (Api.UserId c)
              (Api.Id dash)) verr :: rest
    ∧ ∀ orgId userId dashId e,
        Api.Dispatched (Api.SaveDashboard orgId userId dashId) e ∈ rest →
        verr = None ∧ orgId = Api.cmd_OrgId cmd ∧ userId = Api.cmd_UserId cmd
        ∧ dashId = Api.Id (GetDashboardModel cmd).
Proof.
  unfold Api.PostDashboard_save, mbind, Api.H_bind,
    Api.Dispatch_ValidateDashboardAlertsCommand.
  destruct (Api.on_ValidateDashboardAlertsCommand bus (Api.OrgId c) (Api.UserId c)
              dash (Api.h_world s)) as [[e|] w1]; simpl.
  { intros [= <- <-]. eexists _, []. split; [reflexivity|].
    by intros ???? ?%elem_of_nil. }
  unfold Api.Dispatch_SaveDashboardCommand. simpl.
  destruct (Api.on_SaveDashboardCommand bus cmd w1) as [[res [e|]] w2]; simpl.
  { intros [= <- <-]. eexists _, [_]. simpl. rewrite <- app_assoc.
    split; [reflexivity|]. by intros ???? [= -> -> -> ->]%list_elem_of_singleton. }
  unfold Api.Dispatch_UpdateDashboardAlertsCommand. simpl.
  destruct (Api.on_UpdateDashboardAlertsCommand bus (Api.OrgId c) (Api.UserId c)
              res w2) as [[e|] w3]; simpl.
  { intros [= <- <-]. eexists _, [_; _]. simpl. rewrite <- !app_assoc.
    split; [reflexivity|].
    intros ???? [[= -> -> -> ->]|[[=]|[]%elem_of_nil]%elem_of_cons]%elem_of_cons.
    done. }
  destruct res as [saved|]; simpl; [|done].
  intros [= <- <-]. eexists _, [_; _; _]. simpl. rewrite <- !app_assoc.
  split; [reflexivity|].
  intros ???? [[= -> -> -> ->]|[[=]|[[=]|[]%elem_of_nil]%elem_of_cons]%elem_of_cons]%elem_of_cons.
  done.
Qed.

(** The quota block does not panic, and when it lets the request pass the
    quota was not asked, for a dashboard with an id, or was answered with
    [(false, nil)]. *)
Lemma PostDashboard_quota_passes c dash s :
  ∃ refused s1,
    Api.PostDashboard_quota ApiError QuotaReached c dash s = Ok (refused, s1)
    ∧ (refused = None →
       if bool_decide (Api.Id dash = 0)
       then QuotaReached c "dashboard" (Api.h_world s) = (false, None, Api.h_world s1)
       else Api.h_world s1 = Api.h_world s).
Proof.
  unfold Api.PostDashboard_quota. case_bool_decide as Hid.
  - unfold mbind, Api.H_bind, Api.ask_quota.
    destruct (QuotaReached c "dashboard" (Api.h_world s)) as [[reached [e|]] w1];
      simpl; [|destruct reached]; eexists _, _; (split; [reflexivity|]); done.
  - by exists None, s.
Qed.

(** From the validation of the alerts on, [PostDashboard] panics in one
    place: at [cmd.Result.Slug], when the alerts were validated, the save
    command came back without an error and without a result, and the alerts
    were updated. *)
Lemma PostDashboard_save_panics c cmd dash s p :
  PostDashboard_save c cmd dash s = Panic p →
  p = NilPointerDereference
  ∧ ∃ w1 w2 w3,
      Api.on_ValidateDashboardAlertsCommand bus (Api.OrgId c) (Api.UserId c) dash
        (Api.h_world s) = (None, w1)
      ∧ Api.on_SaveDashboardCommand bus cmd w1 = (None, None, w2)
      ∧ Api.on_UpdateDashboardAlertsCommand bus (Api.OrgId c) (Api.UserId c) None w2
        = (None, w3).
Proof.
  unfold Api.PostDashboard_save, mbind, Api.H_bind,
    Api.Dispatch_ValidateDashboardAlertsCommand.
  destruct (Api.on_ValidateDashboardAlertsCommand bus (Api.OrgId c) (Api.UserId c)
              dash (Api.h_world s)) as [[e|] w1] eqn:Hv; simpl; [done|].
  unfold Api.Dispatch_SaveDashboardCommand. simpl.
  destruct (Api.on_SaveDashboardCommand bus cmd w1) as [[res [e|]] w2] eqn:Hs;
    simpl; [done|].
  unfold Api.Dispatch_UpdateDashboardAlertsCommand. simpl.
  destruct (Api.on_UpdateDashboardAlertsCommand bus (Api.OrgId c) (Api.UserId c)
              res w2) as [[e|] w3] eqn:Hu; simpl; [done|].
  destruct res as [saved|]; simpl; [done|].
  intros [= <-]. split; [done|]. by exists w1, w2, w3.
Qed.

(** Every run of [PostDashboard].  A run that returns has dispatched the
    save command only if the guardian has answered [CanSave] with
    [(true, nil)], the dashboard is not a folder with a parent, its title is
    not empty, the quota (asked for a dashboard without an id) is not
    reached, and the alerts have been validated; the command then carries
    the organization and the user of the request.  A run that does not
    return panics at [cmd.Result.Slug], and has passed the same gates: the
    guardian answered [(true, nil)] in the state the lookup of the existing
    dashboard left, the dashboard is not a folder with a parent and has a
    title, the quota, if asked, was not reached, the alerts were validated,
    and the save command came back with neither an error nor a result. *)
Theorem PostDashboard_guarded c cmd s :
  let dash := GetDashboardModel (stamped c cmd) in
  match PostDashboard c cmd s with
  | Ok (rsp, s') =>
      ∀ orgId userId dashId err,
        Api.Dispatched (Api.SaveDashboard orgId userId dashId) err
          ∈ Api.events_since s s' →
        orgId = Api.OrgId c ∧ userId = Api.UserId c ∧ dashId = Api.Id dash
        ∧ Api.Checked Api.CanSave (Api.Id dash) (Api.OrgId c) (Api.c_SignedInUser c)
            true None ∈ Api.events_since s s'
        ∧ ¬ (Api.IsFolder dash = true ∧ 0 < Api.ParentId dash)
        ∧ Api.Title dash ≠ ""
        ∧ (Api.Id dash = 0 →
           Api.QuotaChecked "dashboard" false None ∈ Api.events_since s s')
        ∧ Api.Dispatched
            (Api.ValidateDashboardAlertsCommand (Api.OrgId c) (Api.UserId c)
               (Api.Id dash))
            None ∈ Api.events_since s s'
  | Panic p =>
      p = NilPointerDereference
      ∧ ¬ (Api.IsFolder dash = true ∧ 0 < Api.ParentId dash)
      ∧ Api.Title dash ≠ ""
      ∧ ∃ dash' s1 w2 w3 w4 w5 w6,
          Api.PostDashboard_existing bus ApiError c dash s = Ok (dash', s1)
          ∧ guardian Api.CanSave (Api.Id dash) (Api.OrgId c) (Api.c_SignedInUser c)
              (Api.h_world s1) = (true, None, w2)
          ∧ (if bool_decide (Api.Id dash = 0)
             then QuotaReached c "dashboard" w2 = (false, None, w3)
             else w3 = w2)
          ∧ Api.on_ValidateDashboardAlertsCommand bus (Api.OrgId c) (Api.UserId c)
              dash' w3 = (None, w4)
          ∧ Api.on_SaveDashboardCommand bus (stamped c cmd) w4 = (None, None, w5)
          ∧ Api.on_UpdateDashboardAlertsCommand bus (Api.OrgId c) (Api.UserId c)
              None w5 = (None, w6)
  end.
Proof.
  intros dash.
  destruct (PostDashboard c cmd s) as [[rsp s']|p] eqn:Hrun.
  - intros orgId userId dashId err Hin.
    unfold Api.PostDashboard in Hrun. cbv zeta in Hrun.
    unfold mbind, Api.H_bind in Hrun. fold dash in Hrun.
    destruct (PostDashboard_existing_spec c dash s)
      as (dash' & s1 & evs1 & He & Hev1 & Hid & Hfolder & Hparent & Htitle & Hlook).
    rewrite He in Hrun. unfold Api.ask in Hrun.
    destruct (guardian Api.CanSave (Api.Id dash') (Api.OrgId c) (Api.c_SignedInUser c)
                (Api.h_world s1)) as [[canSave gerr] w2]. simpl in Hrun.
    rewrite Hid, Hfolder, Hparent, Htitle in Hrun.
    assert (∀ ev, ev ∈ evs1 →
              ev ≠ Api.Dispatched (Api.SaveDashboard orgId userId dashId) err) as Hno1.
    { intros ev (? & ? & ? & ? & ->)%Hlook. done. }
    destruct gerr as [e|]; simpl in Hrun.
    { injection Hrun as <- <-. apply False_ind.
      rewrite (events_since_app s _ (evs1 ++ [_])) in Hin
        by (simpl; by rewrite Hev1, <- app_assoc).
      apply elem_of_app in Hin as [Hin|[=]%list_elem_of_singleton].
      by apply (Hno1 _ Hin). }
    destruct canSave; simpl in Hrun.
    2:{ injection Hrun as <- <-. apply False_ind.
        rewrite (events_since_app s _ (evs1 ++ [_])) in Hin
          by (simpl; by rewrite Hev1, <- app_assoc).
        apply elem_of_app in Hin as [Hin|[=]%list_elem_of_singleton].
        by apply (Hno1 _ Hin). }
    destruct (Api.IsFolder dash && (0 <? Api.ParentId dash)) eqn:Hfp.
    { injection Hrun as <- <-. apply False_ind.
      rewrite (events_since_app s _ (evs1 ++ [_])) in Hin
        by (simpl; by rewrite Hev1, <- app_assoc).
      apply elem_of_app in Hin as [Hin|[=]%list_elem_of_singleton].
      by apply (Hno1 _ Hin). }
    case_bool_decide as Hne.
    { injection Hrun as <- <-. apply False_ind.
      rewrite (events_since_app s _ (evs1 ++ [_])) in Hin
        by (simpl; by rewrite Hev1, <- app_assoc).
      apply elem_of_app in Hin as [Hin|[=]%list_elem_of_singleton].
      by apply (Hno1 _ Hin). }
    match type of Hrun with
    | context [Api.PostDashboard_quota ?a ?q ?c0 ?d ?st] =>
        destruct (Api.PostDashboard_quota a q c0 d st) as [[refused s3]|] eqn:Hquota;
          [|done];
        destruct (PostDashboard_quota_spec _ _ _ _ _ Hquota) as (evsq & Hevq & Hq & Hq0)
    end.
    simpl in Hevq.
    assert (∀ ev, ev ∈ evsq →
              ev ≠ Api.Dispatched (Api.SaveDashboard orgId userId dashId) err) as Hnoq.
    { intros ev (? & ? & ->)%Hq. done. }
    destruct refused as [refusal|].
    { injection Hrun as <- <-. apply False_ind.
      rewrite (events_since_app s _ (evs1 ++ [_] ++ evsq)) in Hin
        by (by rewrite Hevq, Hev1, <- !app_assoc).
      apply elem_of_app in Hin as [Hin|Hin]; [by apply (Hno1 _ Hin)|].
      apply elem_of_app in Hin as [[=]%list_elem_of_singleton|Hin].
      by apply (Hnoq _ Hin). }
    destruct (PostDashboard_save_spec _ _ _ _ _ _ Hrun) as (verr & rest & Hevs & Hsave).
    rewrite (events_since_app s _ (evs1 ++ [_] ++ evsq ++ _ :: rest)) in Hin |- *
      by (by rewrite Hevs, Hevq, Hev1, <- !app_assoc).
    apply elem_of_app in Hin as [Hin|Hin]; [by destruct (Hno1 _ Hin)|].
    apply elem_of_app in Hin as [[=]%list_elem_of_singleton|Hin].
    apply elem_of_app in Hin as [Hin|Hin]; [by destruct (Hnoq _ Hin)|].
    apply elem_of_cons in Hin as [[=]|Hin].
    destruct (Hsave _ _ _ _ Hin) as (-> & -> & -> & ->). simpl.
    rewrite Hid in *.
    split; [done|]. split; [done|]. split; [|split; [|split; [|split; [|split]]]].
    + done.
    + rewrite elem_of_app, elem_of_cons. auto.
    + intros [Hf Hp]. rewrite Hf in Hfp. simpl in Hfp.
      apply Z.ltb_ge in Hfp. lia.
    + done.
    + intros H0. rewrite elem_of_app, elem_of_cons, elem_of_app.
      right. right. left. by apply Hq0.
    + rewrite elem_of_app, elem_of_cons, elem_of_app, elem_of_cons. auto 6.
  - unfold Api.PostDashboard in Hrun. cbv zeta in Hrun.
    unfold mbind, Api.H_bind in Hrun. fold dash in Hrun.
    destruct (PostDashboard_existing_spec c dash s)
      as (dash' & s1 & evs1 & He & Hev1 & Hid & Hfolder & Hparent & Htitle & Hlook).
    rewrite He in Hrun. unfold Api.ask in Hrun.
    destruct (guardian Api.CanSave (Api.Id dash') (Api.OrgId c) (Api.c_SignedInUser c)
                (Api.h_world s1)) as [[canSave gerr] w2] eqn:Hg. simpl in Hrun.
    rewrite Hid in Hg.
    rewrite Hid, Hfolder, Hparent, Htitle in Hrun.
    destruct gerr as [e|]; simpl in Hrun; [done|].
    destruct canSave; simpl in Hrun; [|done].
    destruct (Api.IsFolder dash && (0 <? Api.ParentId dash)) eqn:Hfp; [done|].
    case_bool_decide as Hne; [done|].
    match type of Hrun with
    | context [Api.PostDashboard_quota ?a ?q ?c0 ?d ?st] =>
        destruct (PostDashboard_quota_passes c0 d st)
          as (refused & s3 & Hquota & Hpass)
    end.
    rewrite Hquota in Hrun. destruct refused as [refusal|]; [done|].
    specialize (Hpass eq_refl). rewrite Hid in Hpass. simpl in Hpass.
    destruct (PostDashboard_save_panics _ _ _ _ _ Hrun)
      as (-> & w4 & w5 & w6 & Hv & Hs & Hu).
    split; [done|]. split.
    { intros [Hf Hp]. rewrite Hf in Hfp. simpl in Hfp.
      apply Z.ltb_ge in Hfp. lia. }
    split; [done|].
    exists dash', s1, w2, (Api.h_world s3), w4, w5, w6.
    split; [done|]. split; [done|]. split; [|done].
    case_bool_decide; [done|]. done.
Qed.

(** A dashboard without an id that the guardian lets save, but that is a
    folder with a parent or has an empty title, is refused with the 400
    response of that fault, the folder fault first; the quota is not asked
    and nothing is dispatched. *)
Theorem PostDashboard_invalid c cmd s w1 :
  let dash := GetDashboardModel (stamped c cmd) in
  Api.Id dash <= 0 →
  guardian Api.CanSave (Api.Id dash) (Api.OrgId c) (Api.c_SignedInUser c)
    (Api.h_world s) = (true, None, w1) →
  (Api.IsFolder dash = true ∧ 0 < Api.ParentId dash) ∨ Api.Title dash = "" →
  ∃ s',
    PostDashboard c cmd s
    = Ok (ApiError 400
            (Error_string
               (if Api.IsFolder dash && (0 <? Api.ParentId dash)
                then ErrDashboardFolderCannotHaveParent
                else ErrDashboardTitleEmpty)) None, s')
    ∧ Api.h_world s' = w1
    ∧ Api.events_since s s'
      = [Api.Checked Api.CanSave (Api.Id dash) (Api.OrgId c) (Api.c_SignedInUser c)
           true None].
Proof.
  intros dash Hnew Hg Hbad. unfold Api.PostDashboard. cbv zeta.
  unfold mbind, Api.H_bind. fold dash. unfold Api.PostDashboard_existing.
  replace (0 <? Api.Id dash) with false by (symmetry; apply Z.ltb_ge; lia).
  simpl. unfold Api.ask. rewrite Hg. simpl.
  destruct (Api.IsFolder dash && (0 <? Api.ParentId dash)) eqn:Hfp.
  - eexists. split; [reflexivity|]. split; [done|]. by apply events_since_app.
  - destruct Hbad as [[Hf Hp]|Ht].
    + rewrite Hf in Hfp. simpl in Hfp. apply Z.ltb_ge in Hfp. lia.
    + rewrite bool_decide_eq_true_2 by done.
      eexists. split; [reflexivity|]. split; [done|]. by apply events_since_app.
Qed.

(** A valid dashboard without an id that the guardian lets save is refused
    with the 403 response ["Quota reached"] when the quota is reached, and
    with a 500 response when the quota cannot be read; nothing is
    dispatched. *)
Theorem PostDashboard_quota_reached c cmd s w1 reached qerr w2 :
  let dash := GetDashboardModel (stamped c cmd) in
  Api.Id dash = 0 →
  guardian Api.CanSave (Api.Id dash) (Api.OrgId c) (Api.c_SignedInUser c)
    (Api.h_world s) = (true, None, w1) →
  Api.IsFolder dash && (0 <? Api.ParentId dash) = false →
  Api.Title dash ≠ "" →
  QuotaReached c "dashboard" w1 = (reached, qerr, w2) →
  is_Some qerr ∨ reached = true →
  ∃ s',
    PostDashboard c cmd s
    = Ok (match qerr with
          | Some e => ApiError 500 "failed to get quota" (Some e)
          | None => ApiError 403 "Quota reached" None
          end, s')
    ∧ Api.h_world s' = w2
    ∧ Api.events_since s s'
      = [Api.Checked Api.CanSave (Api.Id dash) (Api.OrgId c) (Api.c_SignedInUser c)
           true None;
         Api.QuotaChecked "dashboard" reached qerr].
Proof.
  intros dash Hnew Hg Hfp Ht Hq Hrefuse. unfold Api.PostDashboard. cbv zeta.
  unfold mbind, Api.H_bind. fold dash. unfold Api.PostDashboard_existing.
  replace (0 <? Api.Id dash) with false by (symmetry; apply Z.ltb_ge; lia).
  simpl. unfold Api.ask. rewrite Hg. simpl. rewrite Hfp.
  rewrite bool_decide_eq_false_2 by done.
  unfold Api.PostDashboard_quota. rewrite bool_decide_eq_true_2 by done.
  unfold mbind, Api.H_bind, Api.ask_quota. simpl. rewrite Hq. simpl.
  destruct qerr as [e|]; simpl.
  - eexists. split; [reflexivity|]. split; [done|].
    apply events_since_app. simpl. by rewrite <- app_assoc.
  - destruct Hrefuse as [[? [=]]| ->]. simpl.
    eexists. split; [reflexivity|]. split; [done|].
    apply events_since_app. simpl. by rewrite <- app_assoc.
Qed.

End PostDashboardFacts.

(** ** Saving on the concrete bus *)

(** A run that saves and returns, and, on the bus whose save command comes
    back with neither an error nor a result, a run that saves and panics. *)
Lemma PostDashboard_guarded_witness :
  (1 = Api.OrgId (ApiScenario.request true true)
   ∧ 2 = Api.UserId (ApiScenario.request true true)
   ∧ Api.Checked Api.CanSave 0 1 true true None
       ∈ Api.events_since ApiScenario.start
           {| Api.h_world := [ApiScenario.home];
              Api.h_events :=
                [Api.Checked Api.CanSave 0 1 true true None;
                 Api.QuotaChecked "dashboard" false None;
                 Api.Dispatched (Api.ValidateDashboardAlertsCommand 1 2 0) None;
                 Api.Dispatched (Api.SaveDashboard 1 2 0) None;
                 Api.Dispatched (Api.UpdateDashboardAlertsCommand 1 2) None;
                 Api.TimedRequest "M_Api_Dashboard_Save"] |})
  ∧ ∃ p,
      Api.PostDashboard ApiScenario.silent_bus ApiScenario.guardian
        ApiScenario.ErrorResponse ApiScenario.JsonResponse (ApiScenario.quota 5)
        ApiScenario.model "name exists" "version mismatch" "not found"
        "folder cannot have parent" "title empty" (λ e : string, e) (λ _, None) ∅
        (ApiScenario.request true true) (ApiScenario.command "New")
        ApiScenario.start
      = Panic p
      ∧ p = NilPointerDereference
      ∧ Api.Title (ApiScenario.model (ApiScenario.command "New")) ≠ "".
Proof.
  split.
  - assert (ApiScenario.PostDashboard 5 (ApiScenario.request true true)
              (ApiScenario.command "New") ApiScenario.start
            = Ok (ApiScenario.JsonResponse 200 (Api.BodySaved "success" "New" 1 101),
                  {| Api.h_world :=
                       [ApiScenario.home;
                        {| Api.Id := 101; Api.Slug := "New"; Api.Title := "New";
                           Api.Version := 1; Api.HasAcl := false;
                           Api.IsFolder := false; Api.ParentId := 0;
                           Api.UpdatedBy := 2; Api.CreatedBy := 2;
                           Api.Created := tt; Api.Updated := tt; Api.Data := [] |}];
                     Api.h_events :=
                       [Api.Checked Api.CanSave 0 1 true true None;
                        Api.QuotaChecked "dashboard" false None;
                        Api.Dispatched (Api.ValidateDashboardAlertsCommand 1 2 0) None;
                        Api.Dispatched (Api.SaveDashboard 1 2 0) None;
                        Api.Dispatched (Api.UpdateDashboardAlertsCommand 1 2) None;
                        Api.TimedRequest "M_Api_Dashboard_Save"] |})) as Hrun
      by reflexivity.
    pose proof (PostDashboard_guarded ApiScenario.bus ApiScenario.guardian
                  ApiScenario.ErrorResponse ApiScenario.JsonResponse
                  (ApiScenario.quota 5) ApiScenario.model "name exists"
                  "version mismatch" "not found" "folder cannot have parent"
                  "title empty" (λ e : string, e) (λ _, None) ∅
                  (ApiScenario.request true true) (ApiScenario.command "New")
                  ApiScenario.start) as H.
    cbv zeta in H. unfold ApiScenario.PostDashboard in Hrun. rewrite Hrun in H.
    destruct (H 1 2 0 None) as (H1 & H2 & _ & H4 & _).
    + apply list_elem_of_further, list_elem_of_further, list_elem_of_further,
        list_elem_of_here.
    + split; [exact H1|]. split; [exact H2|]. exact H4.
  - pose proof (PostDashboard_guarded ApiScenario.silent_bus ApiScenario.guardian
                  ApiScenario.ErrorResponse ApiScenario.JsonResponse
                  (ApiScenario.quota 5) ApiScenario.model "name exists"
                  "version mismatch" "not found" "folder cannot have parent"
                  "title empty" (λ e : string, e) (λ _, None) ∅
                  (ApiScenario.request true true) (ApiScenario.command "New")
                  ApiScenario.start) as H.
    cbv zeta in H.
    destruct (Api.PostDashboard ApiScenario.silent_bus ApiScenario.guardian
                ApiScenario.ErrorResponse ApiScenario.JsonResponse
                (ApiScenario.quota 5) ApiScenario.model "name exists"
                "version mismatch" "not found" "folder cannot have parent"
                "title empty" (λ e : string, e) (λ _, None) ∅
                (ApiScenario.request true true) (ApiScenario.command "New")
                ApiScenario.start) as [[rsp s']|p] eqn:Hrun; [discriminate Hrun|].
    destruct H as (Hp & _ & Ht & _).
    exists p. split; [reflexivity|]. split; [exact Hp | exact Ht].
Defined.

Lemma PostDashboard_invalid_witness :
  ∃ s', ApiScenario.PostDashboard 5 (ApiScenario.request true true)
          (ApiScenario.command "") ApiScenario.start
        = Ok (ApiScenario.ErrorResponse 400 "title empty" None, s')
        ∧ Api.h_world s' = [ApiScenario.home]
        ∧ Api.events_since ApiScenario.start s'
          = [Api.Checked Api.CanSave 0 1 true true None].
Proof.
  apply (PostDashboard_invalid ApiScenario.bus ApiScenario.guardian
           ApiScenario.ErrorResponse ApiScenario.JsonResponse (ApiScenario.quota 5)
           ApiScenario.model "name exists" "version mismatch" "not found"
           "folder cannot have parent" "title empty" (λ e : string, e) (λ _, None) ∅
           (ApiScenario.request true true) (ApiScenario.command "")
           ApiScenario.start [ApiScenario.home]);
    [done | reflexivity | by right].
Defined.

Lemma PostDashboard_quota_reached_witness :
  ∃ s', ApiScenario.PostDashboard 1 (ApiScenario.request true true)
          (ApiScenario.command "New") ApiScenario.start
        = Ok (ApiScenario.ErrorResponse 403 "Quota reached" None, s')
        ∧ Api.h_world s' = [ApiScenario.home]
        ∧ Api.events_since ApiScenario.start s'
          = [Api.Checked Api.CanSave 0 1 true true None;
             Api.QuotaChecked "dashboard" true None].
Proof.
  apply (PostDashboard_quota_reached ApiScenario.bus ApiScenario.guardian
           ApiScenario.ErrorResponse ApiScenario.JsonResponse (ApiScenario.quota 1)
           ApiScenario.model "name exists" "version mismatch" "not found"
           "folder cannot have parent" "title empty" (λ e : string, e) (λ _, None) ∅
           (ApiScenario.request true true) (ApiScenario.command "New")
           ApiScenario.start [ApiScenario.home] true None [ApiScenario.home]);
    [reflexivity | reflexivity | reflexivity | discriminate | reflexivity | by right].
Defined.

(** ** The configuration of the concrete frame *)

Lemma GraphScenario_hasScale_addScale key (p : @GraphNG.ScaleProps Z)
    (b : GraphScenario.Builder) :
  GraphScenario.hasScale key (GraphScenario.addScale p b)
  = bool_decide (key = GraphNG.scaleKey p) || GraphScenario.hasScale key b.
Proof.
  unfold GraphScenario.hasScale, GraphScenario.addScale. apply eq_true_iff_eq.
  by rewrite orb_true_iff, !bool_decide_eq_true, elem_of_cons.
Qed.

Lemma configBuilder_scales_distinct_witness :
  NoDup ["x"; "celsius"; "percent"].
Proof.
  pose proof (configBuilder_scales_distinct GraphScenario.Auto GraphScenario.Bottom
           GraphScenario.Right GraphScenario.Left GraphScenario.Hidden
           GraphScenario.Line tt GraphScenario.number
           (λ side, side) GraphScenario.seriesColorOf
           GraphScenario.getFieldDisplayName
           GraphScenario.addScale GraphScenario.addAxis GraphScenario.addSeries
           GraphScenario.hasScale tt None true []
           (λ key, eq_refl) GraphScenario_hasScale_addScale
           (λ key p b, eq_refl) (λ key p b, eq_refl)
           GraphScenario.frame (Some 0%nat)) as H.
  vm_compute in H. exact H.
Defined.

